(** * ChainReact Python SDK: a shallow embedding of [chainreact_sdk.py]

    The client library drives a remote HTTP API through one transport
    method, [_request], and eleven thin resource operations.  This file
    embeds the data classes, the transport with its exception handlers and
    every operation, and proves the properties of the outgoing payloads and
    of the error surface.

    The remote service and the network are an oracle ([World]): a function
    from the request that is issued to what the HTTP stack answers. *)

From Stdlib Require Import ZArith Floats.
From stdpp Require Import gmap strings pretty.

Set Warnings "-register-all,-clear-no-such-hyp".
Set Default Proof Using "Type".
Local Open Scope Z_scope.

(** ** Python values

    The values that travel through the SDK are the ones [json] produces and
    consumes.  Dictionaries are finite maps keyed by strings. *)

Inductive pyval : Type :=
  | PNone
  | PBool (b : bool)
  | PInt (n : Z)
  | PFloat (f : float)
  | PStr (s : string)
  | PList (l : list pyval)
  | PDict (d : gmap string pyval).

(** Python's truth test, [bool(v)], as used by [if v:]. *)
Definition truthy (v : pyval) : bool :=
  match v with
  | PNone => false
  | PBool b => b
  | PInt n => negb (n =? 0)
  | PFloat f => negb (PrimFloat.eqb f 0%float)
  | PStr s => negb (String.eqb s "")
  | PList l => negb (bool_decide (l = []))
  | PDict d => negb (bool_decide (d = ∅))
  end.

(** Typed optional fields ([Optional[str]], [Optional[Dict[str, Any]]],
    [Optional[Dict[str, str]]], [List[str]]) seen as Python values. *)
Definition of_opt_str (o : option string) : pyval :=
  match o with Some s => PStr s | None => PNone end.

Definition of_opt_dict (o : option (gmap string pyval)) : pyval :=
  match o with Some d => PDict d | None => PNone end.

Definition of_str_dict (d : gmap string string) : pyval := PDict (PStr <$> d).

Definition of_opt_str_dict (o : option (gmap string string)) : pyval :=
  match o with Some d => of_str_dict d | None => PNone end.

Definition of_str_list (l : list string) : pyval := PList (PStr <$> l).

(** ** Exceptions *)

Inductive exn : Type :=
  | ChainReactSDKError (message : string)
  | KeyError (key : string)
  | TypeError
  | ValueError (message : string).

(** [v[k]] for a string key [k]: only a dict can be subscripted by a string;
    a missing key raises [KeyError]. *)
Definition subscript (v : pyval) (k : string) : exn + pyval :=
  match v with
  | PDict d =>
      match d !! k with
      | Some x => inr x
      | None => inl (KeyError k)
      end
  | _ => inl TypeError
  end.

(** [for x in v]: lists yield their elements, strings their characters,
    dicts their keys (here in the order of the finite map, which is not
    Python's insertion order); everything else is not iterable. *)
Definition py_iter (v : pyval) : exn + list pyval :=
  match v with
  | PList l => inr l
  | PStr s => inr ((λ c, PStr (String c "")) <$> String.list_ascii_of_string s)
  | PDict d => inr (PStr <$> (map_to_list d).*1)
  | _ => inl TypeError
  end.

(** ** Data classes *)

Record ChainReactConfig := {
  api_key : string;
  base_url : string;
}.

Definition default_base_url : string := "https://api.chainreact.dev".

(** Data classes do not check the declared field types: a [Workflow] built
    from a response holds whatever values the response holds. *)
Record Workflow := {
  wf_id : pyval;
  wf_name : pyval;
  wf_description : pyval;
  wf_nodes : pyval;
  wf_connections : pyval;
  wf_variables : pyval;
  wf_configuration : pyval;
  wf_status : pyval;
  wf_created_at : pyval;
  wf_updated_at : pyval;
}.

Record CreateWorkflowRequest := {
  cw_name : string;
  cw_nodes : list pyval;
  cw_connections : list pyval;
  cw_description : option string;
  cw_variables : option (gmap string pyval);
  cw_configuration : option (gmap string pyval);
}.

Record PaginatedResponse := {
  pr_data : list Workflow;
  pr_pagination : pyval;
}.

Record WebhookSubscription := {
  wh_id : pyval;
  wh_name : pyval;
  wh_event_types : pyval;
  wh_target_url : pyval;
  wh_is_active : pyval;
  wh_created_at : pyval;
}.

Record CreateWebhookRequest := {
  ch_name : string;
  ch_event_types : list string;
  ch_target_url : string;
  ch_secret_key : option string;
  ch_headers : option (gmap string string);
}.

Definition Workflow_fields : list string :=
  ["id"; "name"; "description"; "nodes"; "connections"; "variables";
   "configuration"; "status"; "created_at"; "updated_at"].

Definition WebhookSubscription_fields : list string :=
  ["id"; "name"; "event_types"; "target_url"; "is_active"; "created_at"].

(** Calling a data class [C] without defaults on the unpacked keywords
    [kw] (double-star unpacking): [kw] must be a mapping
    whose keys are exactly the fields of [C]; a missing or an unexpected
    keyword is a [TypeError]. *)
Definition keywords_are (fields : list string) (d : gmap string pyval) : bool :=
  bool_decide (dom d = list_to_set fields).

Definition Workflow_init (kw : pyval) : exn + Workflow :=
  match kw with
  | PDict d =>
      let built :=
        id ← d !! "id"; name ← d !! "name";
        description ← d !! "description"; nodes ← d !! "nodes";
        connections ← d !! "connections"; variables ← d !! "variables";
        configuration ← d !! "configuration"; status ← d !! "status";
        created_at ← d !! "created_at"; updated_at ← d !! "updated_at";
        Some {| wf_id := id; wf_name := name; wf_description := description;
                wf_nodes := nodes; wf_connections := connections;
                wf_variables := variables; wf_configuration := configuration;
                wf_status := status; wf_created_at := created_at;
                wf_updated_at := updated_at |} in
      match built with
      | Some w => if keywords_are Workflow_fields d then inr w else inl TypeError
      | None => inl TypeError
      end
  | _ => inl TypeError
  end.

Definition WebhookSubscription_init (kw : pyval) : exn + WebhookSubscription :=
  match kw with
  | PDict d =>
      let built :=
        id ← d !! "id"; name ← d !! "name";
        event_types ← d !! "event_types"; target_url ← d !! "target_url";
        is_active ← d !! "is_active"; created_at ← d !! "created_at";
        Some {| wh_id := id; wh_name := name; wh_event_types := event_types;
                wh_target_url := target_url; wh_is_active := is_active;
                wh_created_at := created_at |} in
      match built with
      | Some h =>
          if keywords_are WebhookSubscription_fields d then inr h else inl TypeError
      | None => inl TypeError
      end
  | _ => inl TypeError
  end.

(** A list comprehension [[f(x) for x in l]]: the first exception ends it. *)
Fixpoint comprehension {A : Type} (f : pyval → exn + A) (l : list pyval)
  : exn + list A :=
  match l with
  | [] => inr []
  | x :: l' =>
      match f x with
      | inl e => inl e
      | inr y =>
          match comprehension f l' with
          | inl e => inl e
          | inr ys => inr (y :: ys)
          end
      end
  end.

(** ** The HTTP stack ([requests])

    What the SDK hands to [Session.request], and what it gets back. *)

Record Request := {
  method : string;
  url : string;
  params : option (gmap string pyval);
  json : option pyval;
  headers : gmap string string;
}.

(** What [response.json()] does: it returns the decoded body, or the body
    is not a JSON document.  requests 2.27 and later raise their own
    [JSONDecodeError], which is a [RequestException]; earlier releases let
    the decoder's [ValueError] through. *)
Inductive json_outcome : Type :=
  | JsonValue (v : pyval)
  | JsonRequestsError (msg : string)
  | JsonValueError (msg : string).

Record Response := {
  status_code : Z;
  reason : string;
  response_url : string;
  response_json : json_outcome;
}.

(** [Session.request] either raises a [RequestException] (connection
    refused, DNS failure, timeout: no response) or returns a response. *)
Inductive transport_outcome : Type :=
  | ConnectionFailure (msg : string)
  | Responded (r : Response).

Definition World : Type := Request → transport_outcome.

(** [Response.raise_for_status]: the text of the [HTTPError] it raises for a
    status in 400..599, and [None] when it returns. *)
Definition raise_for_status (r : Response) : option string :=
  let status := status_code r in
  if (400 <=? status) && (status <? 500) then
    Some (pretty status +:+ " Client Error: " +:+ reason r
          +:+ " for url: " +:+ response_url r)
  else if (500 <=? status) && (status <? 600) then
    Some (pretty status +:+ " Server Error: " +:+ reason r
          +:+ " for url: " +:+ response_url r)
  else None.

(** ** The SDK object and its monad *)

Record Session := {
  session_headers : gmap string string;
}.

Record ChainReactSDK := {
  config : ChainReactConfig;
  session : Session;
}.

(** The outcome of a method call on the SDK object: the object afterwards,
    the HTTP requests that went out, and the value returned or the
    exception raised. *)
Record Outcome (A : Type) := {
  self_after : ChainReactSDK;
  sent : list Request;
  result : exn + A;
}.
Arguments self_after {A} _.
Arguments sent {A} _.
Arguments result {A} _.

Definition SDK (A : Type) : Type := ChainReactSDK → World → Outcome A.

Definition sdk_ret {A} (a : A) : SDK A :=
  λ self _, {| self_after := self; sent := []; result := inr a |}.

Definition sdk_raise {A} (e : exn) : SDK A :=
  λ self _, {| self_after := self; sent := []; result := inl e |}.

Definition sdk_bind {A B} (m : SDK A) (k : A → SDK B) : SDK B :=
  λ self world,
    let o := m self world in
    match result o with
    | inl e => {| self_after := self_after o; sent := sent o; result := inl e |}
    | inr a =>
        let o' := k a (self_after o) world in
        {| self_after := self_after o'; sent := sent o ++ sent o';
           result := result o' |}
    end.

(** A pure step that may raise. *)
Definition sdk_lift {A} (r : exn + A) : SDK A :=
  match r with
  | inl e => sdk_raise e
  | inr a => sdk_ret a
  end.

Notation "x ←$ m ; k" := (sdk_bind m (λ x, k))
  (at level 20, m at level 100, k at level 200, only parsing).

Section sdk.

(** [repr]: Python's text for a value that is not a [str] (the built-in
    [format] of an f-string field).  A [str] formats as itself. *)
Variable repr : pyval → string.

(** [requests.Session()]: the fresh session of the installed library, with
    its default headers. *)
Variable requests_Session : Session.

Definition py_str (v : pyval) : string :=
  match v with
  | PStr s => s
  | _ => repr v
  end.

(** [ChainReactSDK.__init__] *)
Definition __init__ (config : ChainReactConfig) : ChainReactSDK :=
  {| config := config;
     session :=
       {| session_headers :=
            <["Content-Type" := "application/json"]>
              (<["Authorization" := "Bearer " +:+ api_key config]>
                 (session_headers requests_Session)) |} |}.

(** [ChainReactSDK._request]: one HTTP call.  The keyword arguments passed
    on to [Session.request] are [params] and [json]. *)
Definition _request (method endpoint : string)
    (params : option (gmap string pyval)) (json : option pyval) : SDK pyval :=
  λ self world,
    let url := base_url (config self) +:+ endpoint in
    let request :=
      {| method := method; url := url; params := params; json := json;
         headers := session_headers (session self) |} in
    let raised (e : exn) : Outcome pyval :=
      {| self_after := self; sent := [request]; result := inl e |} in
    match world request with
    | ConnectionFailure e =>
        raised (ChainReactSDKError ("Request Error: " +:+ e))
    | Responded response =>
        match raise_for_status response with
        | None =>
            match response_json response with
            | JsonValue v =>
                {| self_after := self; sent := [request]; result := inr v |}
            | JsonRequestsError e =>
                raised (ChainReactSDKError ("Request Error: " +:+ e))
            | JsonValueError e => raised (ValueError e)
            end
        | Some e =>
            let error_message :=
              match response_json response with
              | JsonValue (PDict error_data) =>
                  match error_data !! "error" with
                  | Some v => py_str v
                  | None => e
                  end
              | _ => e
              end in
            raised (ChainReactSDKError
                      ("API Error: " +:+ pretty (status_code response)
                       +:+ " - " +:+ error_message))
        end
    end.

(** *** Workflow management *)

Definition get_workflows (page limit : Z) : SDK PaginatedResponse :=
  let params : gmap string pyval :=
    <["limit" := PInt limit]> (<["page" := PInt page]> ∅) in
  response ←$ _request "GET" "/api/v1/workflows" (Some params) None;
  items ←$ sdk_lift (subscript response "data");
  items ←$ sdk_lift (py_iter items);
  data ←$ sdk_lift (comprehension Workflow_init items);
  pagination ←$ sdk_lift (subscript response "pagination");
  sdk_ret {| pr_data := data; pr_pagination := pagination |}.

Definition get_workflow (workflow_id : string) : SDK Workflow :=
  response ←$ _request "GET" ("/api/v1/workflows/" +:+ workflow_id) None None;
  data ←$ sdk_lift (subscript response "data");
  sdk_lift (Workflow_init data).

Definition create_workflow_data (workflow : CreateWorkflowRequest)
  : gmap string pyval :=
  let data : gmap string pyval :=
    <["connections" := PList (cw_connections workflow)]>
      (<["nodes" := PList (cw_nodes workflow)]>
         (<["name" := PStr (cw_name workflow)]> ∅)) in
  let data :=
    if truthy (of_opt_str (cw_description workflow))
    then <["description" := of_opt_str (cw_description workflow)]> data
    else data in
  let data :=
    if truthy (of_opt_dict (cw_variables workflow))
    then <["variables" := of_opt_dict (cw_variables workflow)]> data
    else data in
  let data :=
    if truthy (of_opt_dict (cw_configuration workflow))
    then <["configuration" := of_opt_dict (cw_configuration workflow)]> data
    else data in
  data.

Definition create_workflow (workflow : CreateWorkflowRequest) : SDK Workflow :=
  let data := create_workflow_data workflow in
  response ←$ _request "POST" "/api/v1/workflows" None (Some (PDict data));
  data ←$ sdk_lift (subscript response "data");
  sdk_lift (Workflow_init data).

Definition update_workflow (workflow_id : string)
    (kwargs : gmap string pyval) : SDK Workflow :=
  response ←$ _request "PUT" ("/api/v1/workflows/" +:+ workflow_id)
                None (Some (PDict kwargs));
  data ←$ sdk_lift (subscript response "data");
  sdk_lift (Workflow_init data).

Definition delete_workflow (workflow_id : string) : SDK unit :=
  _ ←$ _request "DELETE" ("/api/v1/workflows/" +:+ workflow_id) None None;
  sdk_ret tt.

Definition execute_workflow_data (input_data : option (gmap string pyval))
  : gmap string pyval :=
  if truthy (of_opt_dict input_data)
  then <["input" := of_opt_dict input_data]> ∅
  else ∅.

Definition execute_workflow (workflow_id : string)
    (input_data : option (gmap string pyval)) : SDK pyval :=
  let data := execute_workflow_data input_data in
  response ←$ _request "POST"
                ("/api/v1/workflows/" +:+ workflow_id +:+ "/execute")
                None (Some (PDict data));
  data ←$ sdk_lift (subscript response "data");
  sdk_lift (subscript data "execution_id").

(** *** Webhook management *)

Definition get_webhooks : SDK (list WebhookSubscription) :=
  response ←$ _request "GET" "/api/v1/webhooks" None None;
  items ←$ sdk_lift (subscript response "data");
  items ←$ sdk_lift (py_iter items);
  sdk_lift (comprehension WebhookSubscription_init items).

Definition create_webhook_data (webhook : CreateWebhookRequest)
  : gmap string pyval :=
  let data : gmap string pyval :=
    <["target_url" := PStr (ch_target_url webhook)]>
      (<["event_types" := of_str_list (ch_event_types webhook)]>
         (<["name" := PStr (ch_name webhook)]> ∅)) in
  let data :=
    if truthy (of_opt_str (ch_secret_key webhook))
    then <["secret_key" := of_opt_str (ch_secret_key webhook)]> data
    else data in
  let data :=
    if truthy (of_opt_str_dict (ch_headers webhook))
    then <["headers" := of_opt_str_dict (ch_headers webhook)]> data
    else data in
  data.

Definition create_webhook (webhook : CreateWebhookRequest)
  : SDK WebhookSubscription :=
  let data := create_webhook_data webhook in
  response ←$ _request "POST" "/api/v1/webhooks" None (Some (PDict data));
  data ←$ sdk_lift (subscript response "data");
  sdk_lift (WebhookSubscription_init data).

Definition update_webhook (webhook_id : string)
    (kwargs : gmap string pyval) : SDK WebhookSubscription :=
  response ←$ _request "PUT" ("/api/v1/webhooks/" +:+ webhook_id)
                None (Some (PDict kwargs));
  data ←$ sdk_lift (subscript response "data");
  sdk_lift (WebhookSubscription_init data).

Definition delete_webhook (webhook_id : string) : SDK unit :=
  _ ←$ _request "DELETE" ("/api/v1/webhooks/" +:+ webhook_id) None None;
  sdk_ret tt.

(** *** Analytics *)

Definition get_usage_analytics (start_date end_date : option string)
    (granularity : string) : SDK pyval :=
  let params : gmap string pyval := <["granularity" := PStr granularity]> ∅ in
  let params :=
    if truthy (of_opt_str start_date)
    then <["start_date" := of_opt_str start_date]> params
    else params in
  let params :=
    if truthy (of_opt_str end_date)
    then <["end_date" := of_opt_str end_date]> params
    else params in
  response ←$ _request "GET" "/api/v1/analytics/usage" (Some params) None;
  sdk_lift (subscript response "data").

(** *** Every public operation

    A call of a public method with its arguments, and what it returns. *)

Inductive call : Type :=
  | GetWorkflows (page limit : Z)
  | GetWorkflow (workflow_id : string)
  | CreateWorkflow (workflow : CreateWorkflowRequest)
  | UpdateWorkflow (workflow_id : string) (kwargs : gmap string pyval)
  | DeleteWorkflow (workflow_id : string)
  | ExecuteWorkflow (workflow_id : string)
      (input_data : option (gmap string pyval))
  | GetWebhooks
  | CreateWebhook (webhook : CreateWebhookRequest)
  | UpdateWebhook (webhook_id : string) (kwargs : gmap string pyval)
  | DeleteWebhook (webhook_id : string)
  | GetUsageAnalytics (start_date end_date : option string)
      (granularity : string).

Inductive returned : Type :=
  | RPaginated (p : PaginatedResponse)
  | RWorkflow (w : Workflow)
  | RNothing
  | RValue (v : pyval)
  | RWebhooks (l : list WebhookSubscription)
  | RWebhook (h : WebhookSubscription).

Definition sdk_map {A B} (f : A → B) (m : SDK A) : SDK B :=
  x ←$ m; sdk_ret (f x).

Definition run (c : call) : SDK returned :=
  match c with
  | GetWorkflows page limit => sdk_map RPaginated (get_workflows page limit)
  | GetWorkflow i => sdk_map RWorkflow (get_workflow i)
  | CreateWorkflow r => sdk_map RWorkflow (create_workflow r)
  | UpdateWorkflow i kw => sdk_map RWorkflow (update_workflow i kw)
  | DeleteWorkflow i => sdk_map (λ _, RNothing) (delete_workflow i)
  | ExecuteWorkflow i d => sdk_map RValue (execute_workflow i d)
  | GetWebhooks => sdk_map RWebhooks get_webhooks
  | CreateWebhook r => sdk_map RWebhook (create_webhook r)
  | UpdateWebhook i kw => sdk_map RWebhook (update_webhook i kw)
  | DeleteWebhook i => sdk_map (λ _, RNothing) (delete_webhook i)
  | GetUsageAnalytics s e g => sdk_map RValue (get_usage_analytics s e g)
  end.

(** A caller issuing several calls in a row on one SDK object; the service
    may answer each call differently. *)
Fixpoint run_calls (cs : list (call * World)) (self : ChainReactSDK)
  : ChainReactSDK * list Request :=
  match cs with
  | [] => (self, [])
  | (c, world) :: cs' =>
      let o := run c self world in
      let '(self', rs) := run_calls cs' (self_after o) in
      (self', sent o ++ rs)
  end.

(** *** Vocabulary of the statements *)

(** The request [_request] hands to the HTTP stack. *)
Definition issued (self : ChainReactSDK) (method endpoint : string)
    (params : option (gmap string pyval)) (json : option pyval) : Request :=
  {| method := method; url := base_url (config self) +:+ endpoint;
     params := params; json := json;
     headers := session_headers (session self) |}.

(** [contains msg part]: Python's [part in msg]. *)
Definition contains (msg part : string) : Prop :=
  ∃ before after : string, msg = before +:+ part +:+ after.

(** The body of an error response has no usable [error] field: it is not
    a JSON document, or not a JSON object, or an object without the key. *)
Definition lacks_error_field (j : json_outcome) : Prop :=
  match j with
  | JsonValue (PDict d) => d !! "error" = None
  | _ => True
  end.

(** The operations that read the decoded body (all but the two deletes). *)
Definition reads_body (c : call) : Prop :=
  match c with
  | DeleteWorkflow _ | DeleteWebhook _ => False
  | _ => True
  end.

(** No response, or a response with an HTTP error status. *)
Definition transport_or_http_failure (t : transport_outcome) : Prop :=
  match t with
  | ConnectionFailure _ => True
  | Responded r => 400 ≤ status_code r < 600
  end.

(** A call ended the way the error policy allows: with a value, or with
    [ChainReactSDKError]. *)
Definition value_or_sdk_error {A} (o : Outcome A) : Prop :=
  match result o with
  | inr _ => True
  | inl (ChainReactSDKError _) => True
  | inl _ => False
  end.

(** A computation that neither touches the SDK object nor the network. *)
Definition quiet {A} (m : SDK A) : Prop :=
  ∀ self world, self_after (m self world) = self ∧ sent (m self world) = [].

(** A computation that is one [_request] followed by quiet steps. *)
Definition one_request {A} (o : SDK A) (m e : string)
    (p : option (gmap string pyval)) (j : option pyval) : Prop :=
  ∀ self world,
    self_after (o self world) = self
    ∧ sent (o self world) = [issued self m e p j]
    ∧ ∀ x, result (_request m e p j self world) = inl x →
           result (o self world) = inl x.

Definition error_message_of (r : Response) (fallback : string) : string :=
  match response_json r with
  | JsonValue (PDict error_data) =>
      match error_data !! "error" with
      | Some v => py_str v
      | None => fallback
      end
  | _ => fallback
  end.

End sdk.

(** ** Concrete inputs

    The objects the statements below are instantiated at. *)

(** [repr] on the scalars whose text does not depend on the interpreter's
    float and string quoting rules. *)
Definition repr_scalar (v : pyval) : string :=
  match v with
  | PNone => "None"
  | PBool true => "True"
  | PBool false => "False"
  | PInt n => pretty n
  | _ => "..."
  end.

Definition plain_session : Session :=
  {| session_headers :=
       <["Connection" := "keep-alive"]>
         (<["Accept" := "*/*"]>
            (<["Accept-Encoding" := "gzip, deflate"]>
               (<["User-Agent" := "python-requests/2.31.0"]> ∅))) |}.

(** The SDK of the example at the end of the module. *)
Definition example_config : ChainReactConfig :=
  {| api_key := "your_api_key_here"; base_url := default_base_url |}.

Definition example_sdk : ChainReactSDK := __init__ plain_session example_config.

(** The request of the example, with and without an explicitly empty
    description. *)
Definition example_workflow (description : option string)
  : CreateWorkflowRequest :=
  {| cw_name := "Test Workflow";
     cw_nodes :=
       [PDict (<["data" := PDict (<["title" := PStr "Webhook Trigger"]> ∅)]>
                 (<["type" := PStr "webhook"]> (<["id" := PStr "trigger"]> ∅)))];
     cw_connections := [];
     cw_description := description;
     cw_variables := None;
     cw_configuration := None |}.

Definition world_refused : World :=
  λ _, ConnectionFailure "Connection refused".

Definition world_answers (status : Z) (reason : string) (body : json_outcome)
  : World :=
  λ request,
    Responded {| status_code := status; reason := reason;
                 response_url := url request; response_json := body |}.

Definition not_found_body : json_outcome :=
  JsonValue (PDict (<["error" := PStr "workflow not found"]> ∅)).

Definition not_json : json_outcome :=
  JsonRequestsError "Expecting value: line 1 column 1 (char 0)".

Definition execution_body : json_outcome :=
  JsonValue (PDict (<["data" := PDict (<["execution_id" := PStr "exec_42"]> ∅)]> ∅)).

(** A workflow and a webhook subscription as the service returns them,
    and the entities they map to. *)
Definition workflow_json : gmap string pyval :=
  list_to_map
    [("id", PStr "wf_1"); ("name", PStr "Test Workflow");
     ("description", PNone); ("nodes", PList []); ("connections", PList []);
     ("variables", PNone); ("configuration", PNone); ("status", PStr "draft");
     ("created_at", PStr "2024-01-01T00:00:00Z");
     ("updated_at", PStr "2024-01-02T00:00:00Z")].

Definition workflow_entity : Workflow :=
  {| wf_id := PStr "wf_1"; wf_name := PStr "Test Workflow";
     wf_description := PNone; wf_nodes := PList []; wf_connections := PList [];
     wf_variables := PNone; wf_configuration := PNone;
     wf_status := PStr "draft"; wf_created_at := PStr "2024-01-01T00:00:00Z";
     wf_updated_at := PStr "2024-01-02T00:00:00Z" |}.

Definition webhook_json : gmap string pyval :=
  list_to_map
    [("id", PStr "wh_1"); ("name", PStr "Deploy hook");
     ("event_types", PList [PStr "workflow.completed"]);
     ("target_url", PStr "https://example.org/hook");
     ("is_active", PBool true); ("created_at", PStr "2024-01-01T00:00:00Z")].

Definition webhook_entity : WebhookSubscription :=
  {| wh_id := PStr "wh_1"; wh_name := PStr "Deploy hook";
     wh_event_types := PList [PStr "workflow.completed"];
     wh_target_url := PStr "https://example.org/hook";
     wh_is_active := PBool true;
     wh_created_at := PStr "2024-01-01T00:00:00Z" |}.

Definition webhook_patch : gmap string pyval := <["is_active" := PBool false]> ∅.

(** A successful body [{"data": v}], and a listing body with its
    pagination block. *)
Definition data_object (v : pyval) : gmap string pyval := <["data" := v]> ∅.

Definition page_block : pyval :=
  PDict (<["total" := PInt 12]> (<["limit" := PInt 5]> (<["page" := PInt 2]> ∅))).

Definition listing_object (items : list pyval) : gmap string pyval :=
  <["pagination" := page_block]> (<["data" := PList items]> ∅).

(** ** The example program

    The block under [if __name__ == "__main__"]: a listing, then a
    creation, with [ChainReactSDKError] caught and printed.  A run of the
    program is the requests it issued, the lines it printed, and the
    exception that ended it, if one escaped the [try]. *)

Record ProgramRun := {
  run_requests : list Request;
  run_stdout : list string;
  run_escaped : option exn;
}.

Definition new_workflow : CreateWorkflowRequest :=
  example_workflow (Some "A test workflow created via SDK").

Definition main (repr : pyval → string) (requests_Session : Session)
    (world : World) : ProgramRun :=
  let config := example_config in
  let sdk := __init__ requests_Session config in
  let listing := get_workflows repr 1 10 sdk world in
  match result listing with
  | inl (ChainReactSDKError e) =>
      {| run_requests := sent listing;
         run_stdout := ["SDK Error: " +:+ e];
         run_escaped := None |}
  | inl e =>
      {| run_requests := sent listing; run_stdout := [];
         run_escaped := Some e |}
  | inr workflows =>
      let found :=
        "Found " +:+ pretty (length (pr_data workflows)) +:+ " workflows" in
      let creation :=
        create_workflow repr new_workflow (self_after listing) world in
      match result creation with
      | inl (ChainReactSDKError e) =>
          {| run_requests := sent listing ++ sent creation;
             run_stdout := [found; "SDK Error: " +:+ e];
             run_escaped := None |}
      | inl e =>
          {| run_requests := sent listing ++ sent creation;
             run_stdout := [found];
             run_escaped := Some e |}
      | inr created_workflow =>
          {| run_requests := sent listing ++ sent creation;
             run_stdout :=
               [found;
                "Created workflow: " +:+ py_str repr (wf_name created_workflow)];
             run_escaped := None |}
      end
  end.

(** ** More vocabulary *)

(** The operations that return one [Workflow]. *)
Definition returns_workflow (c : call) : Prop :=
  match c with
  | GetWorkflow _ | CreateWorkflow _ | UpdateWorkflow _ _ => True
  | _ => False
  end.

(** The operations that return one [WebhookSubscription]. *)
Definition returns_webhook (c : call) : Prop :=
  match c with
  | CreateWebhook _ | UpdateWebhook _ _ => True
  | _ => False
  end.

(** The exceptions an operation can end with. *)
Definition may_raise (c : call) (e : exn) : Prop :=
  match e with
  | ChainReactSDKError _ | ValueError _ => True
  | TypeError => reads_body c
  | KeyError k =>
      k = "data" ∧ reads_body c
      ∨ k = "pagination" ∧ (∃ page limit, c = GetWorkflows page limit)
      ∨ k = "execution_id" ∧ (∃ i d, c = ExecuteWorkflow i d)
  end.

(** * Properties *)

Section properties.

Variable repr : pyval → string.

Lemma quiet_ret {A} (a : A) : quiet (sdk_ret a).
Proof. by intros self world. Qed.

Lemma quiet_raise {A} (e : exn) : quiet (@sdk_raise A e).
Proof. by intros self world. Qed.

Lemma quiet_lift {A} (r : exn + A) : quiet (sdk_lift r).
Proof. destruct r; [apply quiet_raise | apply quiet_ret]. Qed.

Lemma quiet_bind {A B} (m : SDK A) (k : A → SDK B) :
  quiet m → (∀ a, quiet (k a)) → quiet (sdk_bind m k).
Proof.
  intros Hm Hk self world. unfold sdk_bind.
  destruct (Hm self world) as [Hs Ht].
  destruct (result (m self world)) as [e|a]; simpl; [done|].
  rewrite Hs, Ht. apply Hk.
Qed.

Lemma request_self m e p j self world :
  self_after (_request repr m e p j self world) = self.
Proof.
  unfold _request. destruct (world _) as [msg|r]; [done|].
  destruct (raise_for_status r); [done|].
  by destruct (response_json r).
Qed.

Lemma request_sent m e p j self world :
  sent (_request repr m e p j self world) = [issued self m e p j].
Proof.
  unfold _request, issued. destruct (world _) as [msg|r]; [done|].
  destruct (raise_for_status r); [done|].
  by destruct (response_json r).
Qed.

Lemma one_request_request {B} m e p j (k : pyval → SDK B) :
  (∀ a, quiet (k a)) → one_request repr (sdk_bind (_request repr m e p j) k) m e p j.
Proof.
  intros Hk self world. unfold sdk_bind.
  pose proof (request_self m e p j self world) as Hs.
  pose proof (request_sent m e p j self world) as Ht.
  destruct (result (_request repr m e p j self world)) as [e'|a] eqn:Hr; simpl.
  - split_and!; [exact Hs|exact Ht|]. intros x Hx. congruence.
  - rewrite Hs, Ht. destruct (Hk a self world) as [-> ->].
    split_and!; [reflexivity|reflexivity|]. intros x Hx. discriminate Hx.
Qed.

Lemma one_request_bind {A B} (o : SDK A) (k : A → SDK B) m e p j :
  one_request repr o m e p j → (∀ a, quiet (k a)) → one_request repr (sdk_bind o k) m e p j.
Proof.
  intros Ho Hk self world. unfold sdk_bind.
  destruct (Ho self world) as (Hs & Ht & Hx).
  destruct (result (o self world)) as [e'|a] eqn:Hr; simpl.
  - split_and!; try done. intros x Hreq. specialize (Hx x Hreq). congruence.
  - rewrite Hs, Ht. destruct (Hk a self world) as [-> ->].
    split_and!; try done. intros x Hreq. specialize (Hx x Hreq). congruence.
Qed.

Ltac quiet_steps :=
  repeat first
    [ apply quiet_ret | apply quiet_lift | apply quiet_raise
    | apply quiet_bind | intros ? ].

(** Every public operation is one [_request] followed by the mapping of the
    response. *)
Lemma run_one_request (c : call) :
  ∃ m e p j, one_request repr (run repr c) m e p j.
Proof.
  destruct c; do 4 eexists; unfold run, sdk_map;
    (apply one_request_bind; [|quiet_steps]);
    apply one_request_request; quiet_steps.
Qed.

Lemma run_self (c : call) self world : self_after (run repr c self world) = self.
Proof. destruct (run_one_request c) as (m & e & p & j & H). apply H. Qed.

Lemma run_sends_one (c : call) self world :
  ∃ req, sent (run repr c self world) = [req].
Proof.
  destruct (run_one_request c) as (m & e & p & j & H).
  eexists. apply H.
Qed.

(** When [_request] raises, so does the operation, with the same
    exception. *)
Lemma run_raises (c : call) self world req :
  sent (run repr c self world) = [req] →
  ∃ m e p j,
    req = issued self m e p j
    ∧ ∀ x, result (_request repr m e p j self world) = inl x →
           result (run repr c self world) = inl x.
Proof.
  intros Hsent. destruct (run_one_request c) as (m & e & p & j & H).
  destruct (H self world) as (_ & Ht & Hx).
  exists m, e, p, j. split; [congruence|done].
Qed.

(** *** The three ways [_request] raises *)

Lemma request_connection_failure m e p j self world msg :
  world (issued self m e p j) = ConnectionFailure msg →
  result (_request repr m e p j self world)
  = inl (ChainReactSDKError ("Request Error: " +:+ msg)).
Proof. unfold _request, issued. by intros ->. Qed.

Lemma request_http_error m e p j self world r text :
  world (issued self m e p j) = Responded r →
  raise_for_status r = Some text →
  result (_request repr m e p j self world)
  = inl (ChainReactSDKError
           ("API Error: " +:+ pretty (status_code r) +:+ " - "
            +:+ error_message_of repr r text)).
Proof.
  unfold _request, issued, error_message_of. intros -> ->.
  destruct (response_json r) as [[]| |]; try done.
Qed.

Lemma request_undecodable m e p j self world r :
  world (issued self m e p j) = Responded r →
  raise_for_status r = None →
  (∀ v, response_json r ≠ JsonValue v) →
  ∃ msg, response_json r ∈ [JsonRequestsError msg; JsonValueError msg]
    ∧ result (_request repr m e p j self world)
      = inl (match response_json r with
             | JsonValueError _ => ValueError msg
             | _ => ChainReactSDKError ("Request Error: " +:+ msg)
             end).
Proof.
  unfold _request, issued. intros -> -> Hj.
  destruct (response_json r) as [v|msg|msg].
  - by destruct (Hj v).
  - exists msg. split; [set_solver|done].
  - exists msg. split; [set_solver|done].
Qed.

Lemma raise_for_status_error (r : Response) :
  400 ≤ status_code r < 600 →
  ∃ kind, kind ∈ ["Client Error"; "Server Error"]
    ∧ raise_for_status r
      = Some (pretty (status_code r) +:+ " " +:+ kind +:+ ": " +:+ reason r
              +:+ " for url: " +:+ response_url r).
Proof.
  intros [Hlo Hhi]. unfold raise_for_status.
  destruct (status_code r <? 500) eqn:H5.
  - exists "Client Error". split; [set_solver|].
    replace (400 <=? status_code r) with true by (symmetry; lia). done.
  - exists "Server Error". split; [set_solver|].
    replace (400 <=? status_code r) with true by (symmetry; lia).
    replace (500 <=? status_code r) with true by (symmetry; lia).
    replace (status_code r <? 600) with true by (symmetry; lia). done.
Qed.

Lemma raise_for_status_ok (r : Response) :
  ¬ (400 ≤ status_code r < 600) → raise_for_status r = None.
Proof.
  intros H. unfold raise_for_status.
  destruct (400 <=? status_code r) eqn:H4, (status_code r <? 500) eqn:H5,
    (500 <=? status_code r) eqn:H6, (status_code r <? 600) eqn:H7;
    simpl; try done; lia.
Qed.

(** *** The error surface *)

(** C6: when the HTTP call fails at the connection level (no response),
    every operation raises [ChainReactSDKError] whose message is
    ["Request Error: "] followed by the transport failure's own message; the
    error has no status code: its message is never that of an HTTP error,
    whatever the status. *)
Theorem connection_failure_raises_request_error
    (c : call) self world req msg :
  sent (run repr c self world) = [req] →
  world req = ConnectionFailure msg →
  result (run repr c self world)
  = inl (ChainReactSDKError ("Request Error: " +:+ msg))
  ∧ ∀ (status : Z) (text : string),
      "Request Error: " +:+ msg
      ≠ "API Error: " +:+ pretty status +:+ " - " +:+ text.
Proof.
  intros Hsent Hworld.
  destruct (run_raises c self world req Hsent) as (m & e & p & j & -> & Hx).
  split.
  - apply Hx. by apply request_connection_failure.
  - intros status text. discriminate.
Qed.

(** C2: a 404 response whose body is the JSON object
    [{"error": "workflow not found"}] makes every operation raise
    [ChainReactSDKError] with the message
    ["API Error: 404 - workflow not found"], which contains the server's
    text and carries the status code 404. *)
Theorem not_found_raises_api_error (c : call) self world req r :
  sent (run repr c self world) = [req] →
  world req = Responded r →
  status_code r = 404 →
  response_json r = JsonValue (PDict {["error" := PStr "workflow not found"]}) →
  ∃ message,
    result (run repr c self world) = inl (ChainReactSDKError message)
    ∧ message = "API Error: " +:+ pretty 404 +:+ " - workflow not found"
    ∧ contains message "workflow not found"
    ∧ contains message "404".
Proof.
  intros Hsent Hworld Hstatus Hjson.
  destruct (run_raises c self world req Hsent) as (m & e & p & j & -> & Hx).
  destruct (raise_for_status_error r) as (kind & _ & Hraise); [lia|].
  exists "API Error: 404 - workflow not found". split_and!.
  - apply Hx. rewrite (request_http_error m e p j self world r _ Hworld Hraise).
    unfold error_message_of. rewrite Hjson, lookup_singleton_eq, Hstatus.
    reflexivity.
  - reflexivity.
  - by exists "API Error: 404 - ", "".
  - by exists "API Error: ", " - workflow not found".
Qed.

(** C5: on every HTTP error status (400..599) every operation raises
    [ChainReactSDKError] with a message of the form
    ["API Error: <status> - <text>"], whatever the body is; when the body
    is not a JSON document, or is JSON without an [error] field, the text
    is the generic one derived from the status:
    ["<status> Client Error: <reason> for url: <url>"] (or
    ["Server Error"]). *)
Theorem http_error_raises_with_fallback (c : call) self world req r :
  sent (run repr c self world) = [req] →
  world req = Responded r →
  400 ≤ status_code r < 600 →
  ∃ error_message kind,
    result (run repr c self world)
    = inl (ChainReactSDKError
             ("API Error: " +:+ pretty (status_code r) +:+ " - "
              +:+ error_message))
    ∧ kind ∈ ["Client Error"; "Server Error"]
    ∧ (lacks_error_field (response_json r) →
       error_message
       = pretty (status_code r) +:+ " " +:+ kind +:+ ": " +:+ reason r
         +:+ " for url: " +:+ response_url r).
Proof.
  intros Hsent Hworld Hstatus.
  destruct (run_raises c self world req Hsent) as (m & e & p & j & -> & Hx).
  destruct (raise_for_status_error r Hstatus) as (kind & Hkind & Hraise).
  eexists (error_message_of repr r _), kind. split_and!.
  - apply Hx. by apply request_http_error.
  - done.
  - unfold error_message_of, lacks_error_field.
    destruct (response_json r) as [[]| |]; try done. by intros ->.
Qed.

(** C10: every operation, the two deletes included, decodes the body of a
    successful response: when the status is not an error status and the
    body is not a JSON document, the call raises (the decode failure
    wrapped as ["Request Error: ..."], or the decoder's own [ValueError]
    with releases of the HTTP library that do not wrap it). *)
Theorem undecodable_success_body_raises (c : call) self world req r :
  sent (run repr c self world) = [req] →
  world req = Responded r →
  ¬ (400 ≤ status_code r < 600) →
  (∀ v, response_json r ≠ JsonValue v) →
  ∃ msg,
    result (run repr c self world)
    = inl (ChainReactSDKError ("Request Error: " +:+ msg))
    ∨ result (run repr c self world) = inl (ValueError msg).
Proof.
  intros Hsent Hworld Hstatus Hjson.
  destruct (run_raises c self world req Hsent) as (m & e & p & j & -> & Hx).
  destruct (request_undecodable m e p j self world r Hworld
              (raise_for_status_ok r Hstatus) Hjson) as (msg & _ & Hres).
  exists msg. destruct (response_json r); [left|left|right]; by apply Hx.
Qed.

(** *** The success path *)

Lemma bind_raises {A B} (o : SDK A) (k : A → SDK B) self world x :
  result (o self world) = inl x → result (sdk_bind o k self world) = inl x.
Proof. unfold sdk_bind. by intros ->. Qed.

Lemma request_success m e p j self world r v :
  world (issued self m e p j) = Responded r →
  raise_for_status r = None →
  response_json r = JsonValue v →
  _request repr m e p j self world
  = {| self_after := self; sent := [issued self m e p j]; result := inr v |}.
Proof. unfold _request, issued. by intros -> -> ->. Qed.

Lemma bind_request_success {B} m e p j (k : pyval → SDK B) self world r v :
  world (issued self m e p j) = Responded r →
  raise_for_status r = None →
  response_json r = JsonValue v →
  result (sdk_bind (_request repr m e p j) k self world)
  = result (k v self world).
Proof.
  intros Hworld Hraise Hjson. unfold sdk_bind.
  by rewrite (request_success m e p j self world r v Hworld Hraise Hjson).
Qed.

Ltac unfold_operations :=
  unfold run, sdk_map, get_workflows, get_workflow, create_workflow,
    update_workflow, delete_workflow, execute_workflow, get_webhooks,
    create_webhook, update_webhook, delete_webhook, get_usage_analytics.

(** Names the request behind [H : sent (op self world) = [req]]. *)
Ltac name_request H :=
  match type of H with
  | sent (?o ?self ?world) = [?req] =>
      let Hq := fresh "Hq" in
      let Hs := fresh "Hs" in
      eassert (one_request repr o _ _ _ _) as Hq
        by (unfold_operations;
            first
              [ apply one_request_request; quiet_steps
              | apply one_request_bind; [|quiet_steps];
                apply one_request_request; quiet_steps ]);
      destruct (Hq self world) as (_ & Hs & _);
      rewrite Hs in H; clear Hq Hs;
      injection H as <-
  end.

(** C3 (as amended): for every public operation, a connection-level
    failure and an HTTP error status (400..599) both surface as
    [ChainReactSDKError]; the exceptions raised while the decoded body of a
    successful response is mapped are not wrapped: a JSON object without
    the [data] key makes every operation that reads the body raise
    [KeyError('data')]. *)
Theorem failures_surface_as_sdk_error (c : call) self world req :
  sent (run repr c self world) = [req] →
  (transport_or_http_failure (world req) →
   ∃ message, result (run repr c self world) = inl (ChainReactSDKError message))
  ∧ (∀ r d,
       reads_body c →
       world req = Responded r →
       ¬ (400 ≤ status_code r < 600) →
       response_json r = JsonValue (PDict d) →
       d !! "data" = None →
       result (run repr c self world) = inl (KeyError "data")).
Proof.
  intros Hsent. split.
  - intros Hfail.
    destruct (run_raises c self world req Hsent) as (m & e & p & j & -> & Hx).
    destruct (world (issued self m e p j)) as [msg|r] eqn:Hworld.
    + eexists. apply Hx. by apply request_connection_failure.
    + destruct (raise_for_status_error r Hfail) as (kind & _ & Hraise).
      eexists. apply Hx. by apply request_http_error.
  - intros r d Hreads Hworld Hstatus Hjson Hdata.
    apply raise_for_status_ok in Hstatus.
    destruct c; try done; name_request Hsent; unfold_operations;
      apply bind_raises;
      rewrite (bind_request_success _ _ _ _ _ self world r (PDict d)
                 Hworld Hstatus Hjson);
      unfold subscript; rewrite Hdata; reflexivity.
Qed.

(** *** The session headers *)

Lemma run_headers (c : call) self world req :
  req ∈ sent (run repr c self world) →
  headers req = session_headers (session self).
Proof.
  destruct (run_one_request c) as (m & e & p & j & H).
  destruct (H self world) as (_ & -> & _).
  by intros ->%list_elem_of_singleton.
Qed.

Lemma run_calls_invariant (cs : list (call * World)) self :
  (run_calls repr cs self).1 = self
  ∧ length (run_calls repr cs self).2 = length cs
  ∧ ∀ req, req ∈ (run_calls repr cs self).2 →
           headers req = session_headers (session self).
Proof.
  induction cs as [|[c world] cs IH]; simpl.
  - split_and!; [done|done|]. by intros req ?%elem_of_nil.
  - rewrite run_self.
    destruct (run_calls repr cs self) as [self' rs] eqn:Hcs.
    destruct IH as (IH1 & IH2 & IH3). simpl in *.
    destruct (run_sends_one c self world) as [req0 Hreq0].
    split_and!; [done| |].
    + rewrite length_app, Hreq0, IH2. done.
    + intros req [Hin|Hin]%elem_of_app; [by eapply run_headers|by apply IH3].
Qed.

(** C9: every HTTP request of every operation, over any sequence of calls
    on an SDK object, carries [Authorization: Bearer <api_key>] with the
    key of the configuration given at construction and
    [Content-Type: application/json]; every call issues one request, and
    the SDK object (its session headers with it) is the same after the
    calls as at construction. *)
Theorem auth_headers_on_every_request
    (requests_Session : Session) (cfg : ChainReactConfig)
    (cs : list (call * World)) :
  (run_calls repr cs (__init__ requests_Session cfg)).1
  = __init__ requests_Session cfg
  ∧ length (run_calls repr cs (__init__ requests_Session cfg)).2 = length cs
  ∧ ∀ req,
      req ∈ (run_calls repr cs (__init__ requests_Session cfg)).2 →
      headers req !! "Authorization" = Some ("Bearer " +:+ api_key cfg)
      ∧ headers req !! "Content-Type" = Some "application/json".
Proof.
  destruct (run_calls_invariant cs (__init__ requests_Session cfg))
    as (H1 & H2 & H3).
  split_and!; [done|done|].
  intros req Hreq. rewrite (H3 req Hreq). unfold __init__; simpl. split.
  - rewrite lookup_insert_ne by done. apply lookup_insert_eq.
  - apply lookup_insert_eq.
Qed.

(** *** The outgoing payloads *)

Lemma bind_request_sent {B} m e p j (k : pyval → SDK B) self world :
  (∀ a, quiet (k a)) →
  sent (sdk_bind (_request repr m e p j) k self world) = [issued self m e p j].
Proof. intros Hk. by destruct (one_request_request m e p j k Hk self world) as (_ & ? & _). Qed.

Lemma truthy_opt_str (o : option string) :
  truthy (of_opt_str o) = true ↔ ∃ s, o = Some s ∧ s ≠ "".
Proof.
  destruct o as [s|]; simpl.
  - rewrite negb_true_iff. split.
    + intros H. exists s. split; [done|]. intros ->. done.
    + intros (s' & [= <-] & Hs). by apply String.eqb_neq.
  - split; [done|]. by intros (s & ? & _).
Qed.

Lemma truthy_dict (d : gmap string pyval) :
  truthy (PDict d) = true ↔ d ≠ ∅.
Proof. simpl. rewrite negb_true_iff, bool_decide_eq_false. done. Qed.

Lemma create_workflow_data_description (workflow : CreateWorkflowRequest) :
  create_workflow_data workflow !! "description"
  = if truthy (of_opt_str (cw_description workflow))
    then Some (of_opt_str (cw_description workflow)) else None.
Proof.
  unfold create_workflow_data.
  destruct (truthy (of_opt_str _)), (truthy (of_opt_dict (cw_variables _))),
    (truthy (of_opt_dict (cw_configuration _))); by simplify_map_eq.
Qed.

Lemma create_workflow_data_variables (workflow : CreateWorkflowRequest) :
  create_workflow_data workflow !! "variables"
  = if truthy (of_opt_dict (cw_variables workflow))
    then Some (of_opt_dict (cw_variables workflow)) else None.
Proof.
  unfold create_workflow_data.
  destruct (truthy (of_opt_str _)), (truthy (of_opt_dict (cw_variables _))),
    (truthy (of_opt_dict (cw_configuration _))); by simplify_map_eq.
Qed.

Lemma create_workflow_data_configuration (workflow : CreateWorkflowRequest) :
  create_workflow_data workflow !! "configuration"
  = if truthy (of_opt_dict (cw_configuration workflow))
    then Some (of_opt_dict (cw_configuration workflow)) else None.
Proof.
  unfold create_workflow_data.
  destruct (truthy (of_opt_str _)), (truthy (of_opt_dict (cw_variables _))),
    (truthy (of_opt_dict (cw_configuration _))); by simplify_map_eq.
Qed.

Lemma create_workflow_data_required (workflow : CreateWorkflowRequest) :
  create_workflow_data workflow !! "name" = Some (PStr (cw_name workflow))
  ∧ create_workflow_data workflow !! "nodes" = Some (PList (cw_nodes workflow))
  ∧ create_workflow_data workflow !! "connections"
    = Some (PList (cw_connections workflow)).
Proof.
  unfold create_workflow_data.
  destruct (truthy (of_opt_str _)), (truthy (of_opt_dict (cw_variables _))),
    (truthy (of_opt_dict (cw_configuration _))); by simplify_map_eq.
Qed.

Lemma create_webhook_data_lookups (webhook : CreateWebhookRequest) :
  create_webhook_data webhook !! "name" = Some (PStr (ch_name webhook))
  ∧ create_webhook_data webhook !! "event_types"
    = Some (of_str_list (ch_event_types webhook))
  ∧ create_webhook_data webhook !! "target_url"
    = Some (PStr (ch_target_url webhook))
  ∧ create_webhook_data webhook !! "secret_key"
    = (if truthy (of_opt_str (ch_secret_key webhook))
       then Some (of_opt_str (ch_secret_key webhook)) else None)
  ∧ create_webhook_data webhook !! "headers"
    = (if truthy (of_opt_str_dict (ch_headers webhook))
       then Some (of_opt_str_dict (ch_headers webhook)) else None).
Proof.
  unfold create_webhook_data.
  destruct (truthy (of_opt_str _)), (truthy (of_opt_str_dict _));
    by simplify_map_eq.
Qed.

Lemma is_Some_if {A} (b : bool) (x : A) :
  is_Some (if b then Some x else None) ↔ b = true.
Proof.
  destruct b; split; try done.
Qed.

(** C8: the payload of [create_workflow] always holds [name], [nodes] and
    [connections], and holds each of [description], [variables],
    [configuration] exactly when the field of the request is truthy
    (neither [None] nor empty); the payload of [create_webhook] always
    holds [name], [event_types] and [target_url], and holds [secret_key],
    [headers] exactly when the field is truthy. *)
Theorem create_payload_keys
    (workflow : CreateWorkflowRequest) (webhook : CreateWebhookRequest)
    self world :
  (∃ data,
     json <$> sent (create_workflow repr workflow self world)
     = [Some (PDict data)]
     ∧ data !! "name" = Some (PStr (cw_name workflow))
     ∧ data !! "nodes" = Some (PList (cw_nodes workflow))
     ∧ data !! "connections" = Some (PList (cw_connections workflow))
     ∧ (is_Some (data !! "description")
        ↔ truthy (of_opt_str (cw_description workflow)) = true)
     ∧ (is_Some (data !! "variables")
        ↔ truthy (of_opt_dict (cw_variables workflow)) = true)
     ∧ (is_Some (data !! "configuration")
        ↔ truthy (of_opt_dict (cw_configuration workflow)) = true))
  ∧ (∃ data,
       json <$> sent (create_webhook repr webhook self world)
       = [Some (PDict data)]
       ∧ data !! "name" = Some (PStr (ch_name webhook))
       ∧ data !! "event_types" = Some (of_str_list (ch_event_types webhook))
       ∧ data !! "target_url" = Some (PStr (ch_target_url webhook))
       ∧ (is_Some (data !! "secret_key")
          ↔ truthy (of_opt_str (ch_secret_key webhook)) = true)
       ∧ (is_Some (data !! "headers")
          ↔ truthy (of_opt_str_dict (ch_headers webhook)) = true)).
Proof.
  split.
  - exists (create_workflow_data workflow).
    destruct (create_workflow_data_required workflow) as (Hn & Hs & Hc).
    split_and!; try done.
    + unfold create_workflow. rewrite bind_request_sent by quiet_steps. done.
    + rewrite create_workflow_data_description. apply is_Some_if.
    + rewrite create_workflow_data_variables. apply is_Some_if.
    + rewrite create_workflow_data_configuration. apply is_Some_if.
  - exists (create_webhook_data webhook).
    destruct (create_webhook_data_lookups webhook) as (Hn & He & Ht & Hs & Hh).
    split_and!; try done.
    + unfold create_webhook. rewrite bind_request_sent by quiet_steps. done.
    + rewrite Hs. apply is_Some_if.
    + rewrite Hh. apply is_Some_if.
Qed.

(** C1 (as amended): the payload of [create_workflow] omits each of
    [description], [variables], [configuration] when the field is absent
    and also when it is explicitly empty (the empty string, the empty
    mapping); a non-empty value is sent as it is; no key of the payload is
    ever sent as null. *)
Theorem create_workflow_optional_keys
    (workflow : CreateWorkflowRequest) self world :
  ∃ data,
    json <$> sent (create_workflow repr workflow self world)
    = [Some (PDict data)]
    ∧ data !! "description"
      = match cw_description workflow with
        | None | Some "" => None
        | Some s => Some (PStr s)
        end
    ∧ data !! "variables"
      = match cw_variables workflow with
        | None => None
        | Some d => if decide (d = ∅) then None else Some (PDict d)
        end
    ∧ data !! "configuration"
      = match cw_configuration workflow with
        | None => None
        | Some d => if decide (d = ∅) then None else Some (PDict d)
        end
    ∧ ∀ k, data !! k ≠ Some PNone.
Proof.
  exists (create_workflow_data workflow). split_and!.
  - unfold create_workflow. rewrite bind_request_sent by quiet_steps. done.
  - rewrite create_workflow_data_description.
    by destruct (cw_description workflow) as [[|a s]|].
  - rewrite create_workflow_data_variables.
    destruct (cw_variables workflow) as [d|]; simpl; [|done].
    by rewrite (bool_decide_decide (d = ∅)); destruct (decide (d = ∅)).
  - rewrite create_workflow_data_configuration.
    destruct (cw_configuration workflow) as [d|]; simpl; [|done].
    by rewrite (bool_decide_decide (d = ∅)); destruct (decide (d = ∅)).
  - intros k. unfold create_workflow_data.
    destruct (cw_description workflow) as [[|a s]|],
      (cw_variables workflow) as [dv|], (cw_configuration workflow) as [dc|];
      simpl; repeat case_bool_decide; simpl;
      rewrite ?lookup_insert; repeat case_decide; try done;
      by rewrite lookup_empty.
Qed.

(** C7: [update_workflow] and [update_webhook] issue one PUT to the path of
    the resource whose JSON body is the supplied patch itself: a key is in
    the body exactly when it is in the patch, with the value supplied
    (falsy and empty values included). *)
Theorem update_sends_exactly_the_patch
    (workflow_id webhook_id : string) (kwargs : gmap string pyval) self world :
  sent (update_workflow repr workflow_id kwargs self world)
  = [ {| method := "PUT";
         url := base_url (config self) +:+ "/api/v1/workflows/" +:+ workflow_id;
         params := None;
         json := Some (PDict kwargs);
         headers := session_headers (session self) |} ]
  ∧ sent (update_webhook repr webhook_id kwargs self world)
    = [ {| method := "PUT";
           url := base_url (config self) +:+ "/api/v1/webhooks/" +:+ webhook_id;
           params := None;
           json := Some (PDict kwargs);
           headers := session_headers (session self) |} ].
Proof.
  split.
  - unfold update_workflow. by rewrite bind_request_sent by quiet_steps.
  - unfold update_webhook. by rewrite bind_request_sent by quiet_steps.
Qed.

(** C4 (as amended): [execute_workflow] posts to the execute sub-path; the
    body is the empty JSON object when no input is given and also when the
    input given is the empty mapping; it is [{"input": d}] for a non-empty
    input [d]; on a successful response the call returns the value found at
    [response['data']['execution_id']], unmodified. *)
Theorem execute_workflow_body_and_result
    (workflow_id : string) (input_data : option (gmap string pyval))
    self world :
  let body : gmap string pyval :=
    match input_data with
    | None => ∅
    | Some d => if decide (d = ∅) then ∅ else {["input" := PDict d]}
    end in
  let req :=
    {| method := "POST";
       url := base_url (config self) +:+ "/api/v1/workflows/" +:+ workflow_id
              +:+ "/execute";
       params := None;
       json := Some (PDict body);
       headers := session_headers (session self) |} in
  sent (execute_workflow repr workflow_id input_data self world) = [req]
  ∧ ∀ r response data x,
      world req = Responded r →
      ¬ (400 ≤ status_code r < 600) →
      response_json r = JsonValue (PDict response) →
      response !! "data" = Some (PDict data) →
      data !! "execution_id" = Some x →
      result (execute_workflow repr workflow_id input_data self world) = inr x.
Proof.
  intros body req.
  assert (execute_workflow_data input_data = body) as Hbody.
  { unfold execute_workflow_data, body. destruct input_data as [d|]; [|done].
    simpl. rewrite (bool_decide_decide (d = ∅)).
    by destruct (decide (d = ∅)). }
  unfold execute_workflow. rewrite Hbody. split.
  - by rewrite bind_request_sent by quiet_steps.
  - intros r response data x Hworld Hstatus Hjson Hdata Hid.
    apply raise_for_status_ok in Hstatus.
    rewrite (bind_request_success _ _ _ _ _ self world r (PDict response)
               Hworld Hstatus Hjson).
    unfold subscript, sdk_bind. rewrite Hdata. simpl. by rewrite Hid.
Qed.

(** *** Further properties of the transport *)

(** X1: every operation issues exactly one HTTP request, whatever the
    answer, and leaves the SDK object as it was; the URL is the configured
    base URL followed by a path under [/api/v1/], the headers are those of
    the session; a GET or DELETE carries no JSON body, a POST or PUT carries
    a JSON object as body and no query parameters. *)
Theorem one_request_per_call (c : call) self world :
  ∃ req path,
    sent (run repr c self world) = [req]
    ∧ self_after (run repr c self world) = self
    ∧ url req = base_url (config self) +:+ "/api/v1/" +:+ path
    ∧ headers req = session_headers (session self)
    ∧ (method req ∈ ["GET"; "DELETE"] ∧ json req = None
       ∨ method req ∈ ["POST"; "PUT"] ∧ params req = None
         ∧ ∃ d, json req = Some (PDict d)).
Proof.
  destruct c;
    match goal with
    | |- context [sent (run repr ?c self world)] =>
        eassert (one_request repr (run repr c) _ _ _ _) as Hq
          by (unfold_operations; apply one_request_bind; [|quiet_steps];
              apply one_request_request; quiet_steps)
    end;
    destruct (Hq self world) as (Hs & Ht & _);
    eexists _, _; rewrite Ht;
    (split_and!; [reflexivity|exact Hs|reflexivity|reflexivity|]); simpl;
    first [ left; split; [set_solver|reflexivity]
          | right; split_and!; [set_solver|reflexivity|by eexists] ].
Qed.

(** X2: on an HTTP error status whose body is a JSON object with an
    [error] key, the value of the key is the text of the error as it is:
    the status-derived text is used only when the key is missing, not when
    its value is empty or is not a string. *)
Theorem error_field_is_used_as_it_is (c : call) self world req r d v :
  sent (run repr c self world) = [req] →
  world req = Responded r →
  400 ≤ status_code r < 600 →
  response_json r = JsonValue (PDict d) →
  d !! "error" = Some v →
  result (run repr c self world)
  = inl (ChainReactSDKError
           ("API Error: " +:+ pretty (status_code r) +:+ " - "
            +:+ match v with PStr s => s | _ => repr v end)).
Proof.
  intros Hsent Hworld Hstatus Hjson Hv.
  destruct (run_raises c self world req Hsent) as (m & e & p & j & -> & Hx).
  destruct (raise_for_status_error r Hstatus) as (kind & _ & Hraise).
  apply Hx. rewrite (request_http_error m e p j self world r _ Hworld Hraise).
  unfold error_message_of. by rewrite Hjson, Hv.
Qed.

(** X3: [delete_workflow] and [delete_webhook] return [None] on every
    status outside 400..599 whose body decodes, whatever the decoded value
    is: the body is decoded and then ignored. *)
Theorem delete_ignores_the_body (c : call) self world req r v :
  ¬ reads_body c →
  sent (run repr c self world) = [req] →
  world req = Responded r →
  ¬ (400 ≤ status_code r < 600) →
  response_json r = JsonValue v →
  result (run repr c self world) = inr RNothing.
Proof.
  intros Hc Hsent Hworld Hstatus Hjson.
  apply raise_for_status_ok in Hstatus.
  destruct c; simpl in Hc; try (by destruct Hc);
    name_request Hsent; unfold_operations; unfold sdk_bind at 1;
    rewrite (bind_request_success _ _ _ _ _ self world r v
               Hworld Hstatus Hjson); reflexivity.
Qed.

(** X4: the SDK keeps no state between calls: the requests of a sequence
    of calls are, in order, the requests each call issues on the SDK object
    as constructed, and the request of a call does not depend on what the
    service answers. *)
Theorem calls_are_independent (cs : list (call * World)) self :
  (run_calls repr cs self).2
  = flat_map (λ cw, sent (run repr cw.1 self cw.2)) cs
  ∧ ∀ c world world',
      sent (run repr c self world) = sent (run repr c self world').
Proof.
  split.
  - induction cs as [|[c world] cs IH]; simpl; [done|].
    rewrite run_self.
    destruct (run_calls repr cs self) as [self' rs]. simpl in *.
    by rewrite IH.
  - intros c world world'.
    destruct (run_one_request c) as (m & e & p & j & H).
    destruct (H self world) as (_ & -> & _).
    by destruct (H self world') as (_ & -> & _).
Qed.

(** *** The mapping of responses *)

Lemma result_lift {A} (r : exn + A) self world :
  result (sdk_lift r self world) = r.
Proof. by destruct r. Qed.

Lemma result_bind {A B} (o : SDK A) (k : A → SDK B) self world :
  result (sdk_bind o k self world)
  = match result (o self world) with
    | inl e => inl e
    | inr a => result (k a (self_after (o self world)) world)
    end.
Proof. unfold sdk_bind. by destruct (result (o self world)). Qed.

Lemma result_bind_lift {A B} (r : exn + A) (k : A → SDK B) self world :
  result (sdk_bind (sdk_lift r) k self world)
  = match r with
    | inl e => inl e
    | inr a => result (k a self world)
    end.
Proof. by destruct r. Qed.

Lemma result_map {A B} (f : A → B) (o : SDK A) self world :
  result (sdk_map f o self world)
  = match result (o self world) with
    | inl e => inl e
    | inr a => inr (f a)
    end.
Proof. unfold sdk_map. rewrite result_bind. by destruct (result (o self world)). Qed.

Lemma subscript_raises v k e :
  subscript v k = inl e → e = KeyError k ∨ e = TypeError.
Proof.
  destruct v; simpl; try (intros [= <-]; by right).
  destruct (d !! k); [done|]. intros [= <-]. by left.
Qed.

Lemma py_iter_raises v e : py_iter v = inl e → e = TypeError.
Proof. destruct v; simpl; by intros [= <-]. Qed.

Lemma field_in_dom (fields : list string) (d : gmap string pyval) k :
  dom d = list_to_set fields → k ∈ fields → is_Some (d !! k).
Proof. intros Hdom Hk. apply elem_of_dom. rewrite Hdom. by apply elem_of_list_to_set. Qed.

Lemma Workflow_init_inv kw w :
  Workflow_init kw = inr w →
  ∃ d, kw = PDict d
    ∧ dom d = list_to_set Workflow_fields
    ∧ d !! "id" = Some (wf_id w) ∧ d !! "name" = Some (wf_name w)
    ∧ d !! "description" = Some (wf_description w)
    ∧ d !! "nodes" = Some (wf_nodes w)
    ∧ d !! "connections" = Some (wf_connections w)
    ∧ d !! "variables" = Some (wf_variables w)
    ∧ d !! "configuration" = Some (wf_configuration w)
    ∧ d !! "status" = Some (wf_status w)
    ∧ d !! "created_at" = Some (wf_created_at w)
    ∧ d !! "updated_at" = Some (wf_updated_at w).
Proof.
  destruct kw as [| | | | | |d]; try done. unfold Workflow_init.
  destruct (d !! "id") eqn:?, (d !! "name") eqn:?,
    (d !! "description") eqn:?, (d !! "nodes") eqn:?,
    (d !! "connections") eqn:?, (d !! "variables") eqn:?,
    (d !! "configuration") eqn:?, (d !! "status") eqn:?,
    (d !! "created_at") eqn:?, (d !! "updated_at") eqn:?; simpl; try done.
  destruct (keywords_are Workflow_fields d) eqn:Hk; [|done].
  intros [= <-]. exists d. apply bool_decide_eq_true in Hk. by split_and!.
Qed.

Lemma Workflow_init_raises kw e : Workflow_init kw = inl e → e = TypeError.
Proof.
  destruct kw as [| | | | | |d]; simpl; try (by intros [= <-]).
  destruct (d !! "id"), (d !! "name"), (d !! "description"), (d !! "nodes"),
    (d !! "connections"), (d !! "variables"), (d !! "configuration"),
    (d !! "status"), (d !! "created_at"), (d !! "updated_at"); simpl;
    try (by intros [= <-]).
  destruct (keywords_are Workflow_fields d); by intros [= <-].
Qed.

Ltac is_field :=
  apply list_elem_of_In; simpl; repeat first [ left; reflexivity | right ].

Lemma Workflow_init_ok (d : gmap string pyval) :
  dom d = list_to_set Workflow_fields → ∃ w, Workflow_init (PDict d) = inr w.
Proof.
  intros Hdom. unfold Workflow_init.
  destruct (field_in_dom Workflow_fields d "id" Hdom) as [? ->]; [is_field|].
  destruct (field_in_dom Workflow_fields d "name" Hdom) as [? ->]; [is_field|].
  destruct (field_in_dom Workflow_fields d "description" Hdom) as [? ->];
    [is_field|].
  destruct (field_in_dom Workflow_fields d "nodes" Hdom) as [? ->]; [is_field|].
  destruct (field_in_dom Workflow_fields d "connections" Hdom) as [? ->];
    [is_field|].
  destruct (field_in_dom Workflow_fields d "variables" Hdom) as [? ->];
    [is_field|].
  destruct (field_in_dom Workflow_fields d "configuration" Hdom) as [? ->];
    [is_field|].
  destruct (field_in_dom Workflow_fields d "status" Hdom) as [? ->]; [is_field|].
  destruct (field_in_dom Workflow_fields d "created_at" Hdom) as [? ->];
    [is_field|].
  destruct (field_in_dom Workflow_fields d "updated_at" Hdom) as [? ->];
    [is_field|].
  simpl. unfold keywords_are. rewrite bool_decide_eq_true_2 by done. by eexists.
Qed.

Lemma WebhookSubscription_init_inv kw h :
  WebhookSubscription_init kw = inr h →
  ∃ d, kw = PDict d
    ∧ dom d = list_to_set WebhookSubscription_fields
    ∧ d !! "id" = Some (wh_id h) ∧ d !! "name" = Some (wh_name h)
    ∧ d !! "event_types" = Some (wh_event_types h)
    ∧ d !! "target_url" = Some (wh_target_url h)
    ∧ d !! "is_active" = Some (wh_is_active h)
    ∧ d !! "created_at" = Some (wh_created_at h).
Proof.
  destruct kw as [| | | | | |d]; try done. unfold WebhookSubscription_init.
  destruct (d !! "id") eqn:?, (d !! "name") eqn:?,
    (d !! "event_types") eqn:?, (d !! "target_url") eqn:?,
    (d !! "is_active") eqn:?, (d !! "created_at") eqn:?; simpl; try done.
  destruct (keywords_are WebhookSubscription_fields d) eqn:Hk; [|done].
  intros [= <-]. exists d. apply bool_decide_eq_true in Hk. by split_and!.
Qed.

Lemma WebhookSubscription_init_raises kw e :
  WebhookSubscription_init kw = inl e → e = TypeError.
Proof.
  destruct kw as [| | | | | |d]; simpl; try (by intros [= <-]).
  destruct (d !! "id"), (d !! "name"), (d !! "event_types"),
    (d !! "target_url"), (d !! "is_active"), (d !! "created_at");
    simpl; try (by intros [= <-]).
  destruct (keywords_are WebhookSubscription_fields d); by intros [= <-].
Qed.

Lemma WebhookSubscription_init_ok (d : gmap string pyval) :
  dom d = list_to_set WebhookSubscription_fields →
  ∃ h, WebhookSubscription_init (PDict d) = inr h.
Proof.
  intros Hdom. unfold WebhookSubscription_init.
  destruct (field_in_dom WebhookSubscription_fields d "id" Hdom) as [? ->];
    [is_field|].
  destruct (field_in_dom WebhookSubscription_fields d "name" Hdom) as [? ->];
    [is_field|].
  destruct (field_in_dom WebhookSubscription_fields d "event_types" Hdom)
    as [? ->]; [is_field|].
  destruct (field_in_dom WebhookSubscription_fields d "target_url" Hdom)
    as [? ->]; [is_field|].
  destruct (field_in_dom WebhookSubscription_fields d "is_active" Hdom)
    as [? ->]; [is_field|].
  destruct (field_in_dom WebhookSubscription_fields d "created_at" Hdom)
    as [? ->]; [is_field|].
  simpl. unfold keywords_are. rewrite bool_decide_eq_true_2 by done. by eexists.
Qed.

Lemma comprehension_Forall2 {A} (f : pyval → exn + A) l ys :
  comprehension f l = inr ys ↔ Forall2 (λ x y, f x = inr y) l ys.
Proof.
  revert ys. induction l as [|x l IH]; intros ys; simpl.
  - split; [intros [= <-]; constructor|by intros ->%Forall2_nil_inv_l].
  - destruct (f x) as [e|y] eqn:Hx.
    + split; [done|]. intros (y & ys' & Hy & _ & _)%Forall2_cons_inv_l.
      congruence.
    + destruct (comprehension f l) as [e|ys'] eqn:Hl.
      * split; [done|]. intros (y' & ys' & _ & Hys & _)%Forall2_cons_inv_l.
        by apply IH in Hys.
      * split.
        -- intros [= <-]. constructor; [done|]. by apply IH.
        -- intros (y' & ys'' & Hy & Hys & ->)%Forall2_cons_inv_l.
           apply IH in Hys. congruence.
Qed.

Lemma comprehension_raises {A} (f : pyval → exn + A) l e :
  comprehension f l = inl e → ∃ x, x ∈ l ∧ f x = inl e.
Proof.
  induction l as [|x l IH]; simpl; [done|].
  destruct (f x) as [e'|y] eqn:Hx.
  - intros [= <-]. exists x. split; [by left|done].
  - destruct (comprehension f l) as [e'|ys]; [|done].
    intros [= <-]. destruct IH as (x' & Hin & Hx'); [done|].
    exists x'. split; [by right|done].
Qed.

Lemma comprehension_fails {A} (f : pyval → exn + A) l x :
  x ∈ l → (∀ y, f x ≠ inr y) → ∃ e, comprehension f l = inl e.
Proof.
  intros Hin Hx. destruct (comprehension f l) as [e|ys] eqn:Hl; [by eexists|].
  apply comprehension_Forall2 in Hl.
  apply list_elem_of_lookup in Hin as [i Hi].
  destruct (Forall2_lookup_l _ _ _ i x Hl Hi) as (y & _ & Hy).
  by destruct (Hx y).
Qed.

Lemma run_workflow_result (c : call) self world req r response v :
  returns_workflow c →
  sent (run repr c self world) = [req] →
  world req = Responded r →
  raise_for_status r = None →
  response_json r = JsonValue (PDict response) →
  response !! "data" = Some v →
  result (run repr c self world)
  = match Workflow_init v with
    | inl e => inl e
    | inr w => inr (RWorkflow w)
    end.
Proof.
  intros Hc Hsent Hworld Hstatus Hjson Hdata.
  destruct c; simpl in Hc; try (by destruct Hc);
    name_request Hsent; unfold run; rewrite result_map; unfold_operations;
    rewrite (bind_request_success _ _ _ _ _ self world r (PDict response)
               Hworld Hstatus Hjson), result_bind_lift;
    unfold subscript; rewrite Hdata, result_lift; reflexivity.
Qed.

Lemma run_webhook_result (c : call) self world req r response v :
  returns_webhook c →
  sent (run repr c self world) = [req] →
  world req = Responded r →
  raise_for_status r = None →
  response_json r = JsonValue (PDict response) →
  response !! "data" = Some v →
  result (run repr c self world)
  = match WebhookSubscription_init v with
    | inl e => inl e
    | inr h => inr (RWebhook h)
    end.
Proof.
  intros Hc Hsent Hworld Hstatus Hjson Hdata.
  destruct c; simpl in Hc; try (by destruct Hc);
    name_request Hsent; unfold run; rewrite result_map; unfold_operations;
    rewrite (bind_request_success _ _ _ _ _ self world r (PDict response)
               Hworld Hstatus Hjson), result_bind_lift;
    unfold subscript; rewrite Hdata, result_lift; reflexivity.
Qed.

(** X5: [get_workflow], [create_workflow] and [update_workflow] map a
    successful response the same way: when the object under [data] has
    exactly the ten fields of [Workflow] as keys, the call returns the
    [Workflow] whose every field is the value found under the key of the
    same name, unconverted. *)
Theorem workflow_response_is_mapped_fieldwise
    (c : call) self world req r response d :
  returns_workflow c →
  sent (run repr c self world) = [req] →
  world req = Responded r →
  ¬ (400 ≤ status_code r < 600) →
  response_json r = JsonValue (PDict response) →
  response !! "data" = Some (PDict d) →
  dom d = list_to_set Workflow_fields →
  ∃ w,
    result (run repr c self world) = inr (RWorkflow w)
    ∧ d !! "id" = Some (wf_id w) ∧ d !! "name" = Some (wf_name w)
    ∧ d !! "description" = Some (wf_description w)
    ∧ d !! "nodes" = Some (wf_nodes w)
    ∧ d !! "connections" = Some (wf_connections w)
    ∧ d !! "variables" = Some (wf_variables w)
    ∧ d !! "configuration" = Some (wf_configuration w)
    ∧ d !! "status" = Some (wf_status w)
    ∧ d !! "created_at" = Some (wf_created_at w)
    ∧ d !! "updated_at" = Some (wf_updated_at w).
Proof.
  intros Hc Hsent Hworld Hstatus Hjson Hdata Hdom.
  apply raise_for_status_ok in Hstatus.
  rewrite (run_workflow_result c self world req r response (PDict d))
    by done.
  destruct (Workflow_init_ok d Hdom) as [w Hw]. rewrite Hw. exists w.
  split; [done|].
  by destruct (Workflow_init_inv _ _ Hw) as (d' & [= <-] & _ & H).
Qed.

(** X6: the five operations that return one entity raise [TypeError] on a
    successful response whose [data] is not an object with exactly the
    fields of the entity as keys: a field missing, or a key the data class
    does not know, fails the call. *)
Theorem entity_of_wrong_shape_raises_type_error
    (c : call) (fields : list string) self world req r response v :
  returns_workflow c ∧ fields = Workflow_fields
  ∨ returns_webhook c ∧ fields = WebhookSubscription_fields →
  sent (run repr c self world) = [req] →
  world req = Responded r →
  ¬ (400 ≤ status_code r < 600) →
  response_json r = JsonValue (PDict response) →
  response !! "data" = Some v →
  (∀ d, v = PDict d → dom d ≠ list_to_set fields) →
  result (run repr c self world) = inl TypeError.
Proof.
  intros Hc Hsent Hworld Hstatus Hjson Hdata Hshape.
  apply raise_for_status_ok in Hstatus.
  destruct Hc as [[Hc ->]|[Hc ->]].
  - rewrite (run_workflow_result c self world req r response v) by done.
    destruct (Workflow_init v) as [e|w] eqn:Hv.
    + by rewrite (Workflow_init_raises v e Hv).
    + destruct (Workflow_init_inv v w Hv) as (d & -> & Hdom & _).
      by destruct (Hshape d eq_refl).
  - rewrite (run_webhook_result c self world req r response v) by done.
    destruct (WebhookSubscription_init v) as [e|h] eqn:Hv.
    + by rewrite (WebhookSubscription_init_raises v e Hv).
    + destruct (WebhookSubscription_init_inv v h Hv) as (d & -> & Hdom & _).
      by destruct (Hshape d eq_refl).
Qed.

(** X7: [create_webhook] and [update_webhook] return, for an object under
    [data] with exactly the six fields of [WebhookSubscription] as keys,
    the subscription whose every field is the value found under the key of
    the same name. *)
Theorem webhook_response_is_mapped_fieldwise
    (c : call) self world req r response d :
  returns_webhook c →
  sent (run repr c self world) = [req] →
  world req = Responded r →
  ¬ (400 ≤ status_code r < 600) →
  response_json r = JsonValue (PDict response) →
  response !! "data" = Some (PDict d) →
  dom d = list_to_set WebhookSubscription_fields →
  ∃ h,
    result (run repr c self world) = inr (RWebhook h)
    ∧ d !! "id" = Some (wh_id h) ∧ d !! "name" = Some (wh_name h)
    ∧ d !! "event_types" = Some (wh_event_types h)
    ∧ d !! "target_url" = Some (wh_target_url h)
    ∧ d !! "is_active" = Some (wh_is_active h)
    ∧ d !! "created_at" = Some (wh_created_at h).
Proof.
  intros Hc Hsent Hworld Hstatus Hjson Hdata Hdom.
  apply raise_for_status_ok in Hstatus.
  rewrite (run_webhook_result c self world req r response (PDict d)) by done.
  destruct (WebhookSubscription_init_ok d Hdom) as [h Hh]. rewrite Hh.
  exists h. split; [done|].
  by destruct (WebhookSubscription_init_inv _ _ Hh) as (d' & [= <-] & _ & H).
Qed.

(** X8: [get_workflows] sends [page] and [limit] as the query parameters
    of one GET; on a successful response whose [data] is a list, it returns
    the workflows mapped from the elements, in the order of the list and as
    many as the list holds (the length is not checked against [limit]),
    with the [pagination] value of the response handed on as it is. *)
Theorem get_workflows_maps_each_item
    (page limit : Z) self world r response items ws pagination :
  let req :=
    {| method := "GET";
       url := base_url (config self) +:+ "/api/v1/workflows";
       params := Some (<["limit" := PInt limit]> (<["page" := PInt page]> ∅));
       json := None;
       headers := session_headers (session self) |} in
  world req = Responded r →
  ¬ (400 ≤ status_code r < 600) →
  response_json r = JsonValue (PDict response) →
  response !! "data" = Some (PList items) →
  response !! "pagination" = Some pagination →
  Forall2 (λ item w, Workflow_init item = inr w) items ws →
  sent (get_workflows repr page limit self world) = [req]
  ∧ result (get_workflows repr page limit self world)
    = inr {| pr_data := ws; pr_pagination := pagination |}.
Proof.
  intros req Hworld Hstatus Hjson Hdata Hpagination Hitems.
  apply raise_for_status_ok in Hstatus.
  apply comprehension_Forall2 in Hitems.
  unfold get_workflows. split.
  - by rewrite bind_request_sent by quiet_steps.
  - rewrite (bind_request_success _ _ _ _ _ self world r (PDict response)
               Hworld Hstatus Hjson).
    unfold subscript. rewrite Hdata, Hpagination. simpl.
    rewrite !result_bind_lift, Hitems. reflexivity.
Qed.

(** X9: one element of the [data] list that does not map to a [Workflow]
    fails the whole listing with [TypeError]: [get_workflows] returns no
    partial list, and the failure comes before [pagination] is read. *)
Theorem get_workflows_malformed_item
    (page limit : Z) self world r response items item :
  world
    {| method := "GET";
       url := base_url (config self) +:+ "/api/v1/workflows";
       params := Some (<["limit" := PInt limit]> (<["page" := PInt page]> ∅));
       json := None;
       headers := session_headers (session self) |}
  = Responded r →
  ¬ (400 ≤ status_code r < 600) →
  response_json r = JsonValue (PDict response) →
  response !! "data" = Some (PList items) →
  item ∈ items →
  (∀ w, Workflow_init item ≠ inr w) →
  result (get_workflows repr page limit self world) = inl TypeError.
Proof.
  intros Hworld Hstatus Hjson Hdata Hin Hitem.
  apply raise_for_status_ok in Hstatus.
  destruct (comprehension_fails Workflow_init items item Hin Hitem) as [e He].
  destruct (comprehension_raises _ _ _ He) as (x & _ & Hx).
  apply Workflow_init_raises in Hx as ->.
  unfold get_workflows.
  rewrite (bind_request_success _ _ _ _ _ self world r (PDict response)
             Hworld Hstatus Hjson).
  unfold subscript. rewrite Hdata. simpl.
  rewrite !result_bind_lift, He. reflexivity.
Qed.

(** X10: [get_webhooks] issues one GET without query parameters and, on a
    successful response whose [data] is a list, returns the subscriptions
    mapped from the elements, in the order of the list. *)
Theorem get_webhooks_maps_each_item self world r response items hs :
  let req :=
    {| method := "GET";
       url := base_url (config self) +:+ "/api/v1/webhooks";
       params := None;
       json := None;
       headers := session_headers (session self) |} in
  world req = Responded r →
  ¬ (400 ≤ status_code r < 600) →
  response_json r = JsonValue (PDict response) →
  response !! "data" = Some (PList items) →
  Forall2 (λ item h, WebhookSubscription_init item = inr h) items hs →
  sent (get_webhooks repr self world) = [req]
  ∧ result (get_webhooks repr self world) = inr hs.
Proof.
  intros req Hworld Hstatus Hjson Hdata Hitems.
  apply raise_for_status_ok in Hstatus.
  apply comprehension_Forall2 in Hitems.
  unfold get_webhooks. split.
  - by rewrite bind_request_sent by quiet_steps.
  - rewrite (bind_request_success _ _ _ _ _ self world r (PDict response)
               Hworld Hstatus Hjson).
    unfold subscript. rewrite Hdata. simpl.
    rewrite result_lift. exact Hitems.
Qed.

(** X11: [get_usage_analytics] issues one GET whose query always holds
    [granularity] (an empty one included) and holds [start_date] and
    [end_date] only when they are given and not empty, and nothing else; on
    a successful response it returns the value under [data] as it is. *)
Theorem usage_analytics_query_and_result
    (start_date end_date : option string) (granularity : string) self world :
  ∃ query : gmap string pyval,
    sent (get_usage_analytics repr start_date end_date granularity self world)
    = [ {| method := "GET";
           url := base_url (config self) +:+ "/api/v1/analytics/usage";
           params := Some query;
           json := None;
           headers := session_headers (session self) |} ]
    ∧ query !! "granularity" = Some (PStr granularity)
    ∧ query !! "start_date"
      = match start_date with
        | None | Some "" => None
        | Some s => Some (PStr s)
        end
    ∧ query !! "end_date"
      = match end_date with
        | None | Some "" => None
        | Some s => Some (PStr s)
        end
    ∧ dom query ⊆ {["granularity"; "start_date"; "end_date"]}
    ∧ ∀ r response x,
        world {| method := "GET";
                 url := base_url (config self) +:+ "/api/v1/analytics/usage";
                 params := Some query;
                 json := None;
                 headers := session_headers (session self) |}
        = Responded r →
        ¬ (400 ≤ status_code r < 600) →
        response_json r = JsonValue (PDict response) →
        response !! "data" = Some x →
        result (get_usage_analytics repr start_date end_date granularity
                  self world)
        = inr x.
Proof.
  unfold get_usage_analytics. eexists. split.
  { rewrite bind_request_sent by quiet_steps. reflexivity. }
  split_and!.
  - destruct start_date as [[|??]|], end_date as [[|??]|]; by simplify_map_eq.
  - destruct start_date as [[|??]|], end_date as [[|??]|]; by simplify_map_eq.
  - destruct start_date as [[|??]|], end_date as [[|??]|]; by simplify_map_eq.
  - destruct start_date as [[|??]|], end_date as [[|??]|]; simpl;
      rewrite ?dom_insert_L, dom_empty_L; set_solver.
  - intros r response x Hworld Hstatus Hjson Hdata.
    apply raise_for_status_ok in Hstatus.
    rewrite (bind_request_success _ _ _ _ _ self world r (PDict response)
               Hworld Hstatus Hjson).
    unfold subscript. rewrite Hdata. reflexivity.
Qed.

(** *** The whole error surface *)

Lemma request_raises_only m e p j self world x :
  result (_request repr m e p j self world) = inl x →
  (∃ msg, x = ChainReactSDKError msg) ∨ (∃ msg, x = ValueError msg).
Proof.
  unfold _request. destruct (world _) as [msg|r]; simpl.
  - intros [= <-]. left. by eexists.
  - destruct (raise_for_status r); simpl.
    + intros [= <-]. left. by eexists.
    + destruct (response_json r); simpl; [done| |]; intros [= <-];
        [left|right]; by eexists.
Qed.

Ltac surface_cases H :=
  unfold get_workflows, get_workflow, create_workflow, update_workflow,
    delete_workflow, execute_workflow, get_webhooks, create_webhook,
    update_webhook, delete_webhook, get_usage_analytics in H;
  repeat first
    [ rewrite result_map in H
    | rewrite result_bind_lift in H
    | rewrite result_lift in H
    | rewrite result_bind, ?request_self in H ];
  lazymatch type of H with
  | context [match ?r with inl _ => _ | inr _ => _ end] =>
      let Hr := fresh "Hr" in
      destruct r eqn:Hr; [surface_cases Hr|]; surface_cases H
  | _ => idtac
  end.

Ltac surface_done :=
  simplify_eq;
  match goal with
  | H : result (_request _ _ _ _ _ _ _) = inl _ |- _ =>
      apply request_raises_only in H as [[? ->]|[? ->]]; exact I
  | H : subscript _ _ = inl _ |- _ =>
      apply subscript_raises in H as [-> | ->]
  | H : py_iter _ = inl _ |- _ => apply py_iter_raises in H as ->
  | H : comprehension Workflow_init _ = inl _ |- _ =>
      apply comprehension_raises in H as (? & _ & ->%Workflow_init_raises)
  | H : comprehension WebhookSubscription_init _ = inl _ |- _ =>
      apply comprehension_raises in H
        as (? & _ & ->%WebhookSubscription_init_raises)
  | H : Workflow_init _ = inl _ |- _ => apply Workflow_init_raises in H as ->
  | H : WebhookSubscription_init _ = inl _ |- _ =>
      apply WebhookSubscription_init_raises in H as ->
  end;
  simpl; eauto 10.

(** X12: the exceptions a call can end with are [ChainReactSDKError], the
    decoder's [ValueError], [TypeError], and [KeyError] for the key [data]
    (for [pagination] in [get_workflows] and [execution_id] in
    [execute_workflow] as well); the two deletes raise neither [KeyError]
    nor [TypeError]. *)
Theorem raised_exceptions (c : call) self world e :
  result (run repr c self world) = inl e → may_raise c e.
Proof.
  intros H. destruct c; unfold run in H; surface_cases H; surface_done.
Qed.

(** *** The example program *)

Lemma bind_request_self {B} m e p j (k : pyval → SDK B) self world :
  (∀ a, quiet (k a)) →
  self_after (sdk_bind (_request repr m e p j) k self world) = self.
Proof.
  intros Hk.
  by destruct (one_request_request m e p j k Hk self world) as (? & _ & _).
Qed.

(** X13: the example program always issues the listing GET first and at
    most one further request, the creation POST; [ChainReactSDKError] never
    escapes it; when the listing fails at the connection or with an HTTP
    error status, the POST is not issued, and the program prints the single
    line ["SDK Error: <message>"] and ends normally. *)
Theorem example_program_run (requests_Session : Session) world :
  let sdk := __init__ requests_Session example_config in
  let listing :=
    {| method := "GET";
       url := default_base_url +:+ "/api/v1/workflows";
       params := Some (<["limit" := PInt 10]> (<["page" := PInt 1]> ∅));
       json := None;
       headers := session_headers (session sdk) |} in
  let creation :=
    {| method := "POST";
       url := default_base_url +:+ "/api/v1/workflows";
       params := None;
       json := Some (PDict (create_workflow_data new_workflow));
       headers := session_headers (session sdk) |} in
  let outcome := main repr requests_Session world in
  (run_requests outcome = [listing] ∨ run_requests outcome = [listing; creation])
  ∧ (∀ m, run_escaped outcome ≠ Some (ChainReactSDKError m))
  ∧ (transport_or_http_failure (world listing) →
     ∃ message,
       outcome
       = {| run_requests := [listing];
            run_stdout := ["SDK Error: " +:+ message];
            run_escaped := None |}).
Proof.
  intros sdk listing creation outcome. subst outcome. unfold main.
  fold sdk.
  set (o1 := get_workflows repr 1 10 sdk world).
  assert (self_after o1 = sdk ∧ sent o1 = [listing]) as [Hself1 Hsent1].
  { subst o1. unfold get_workflows.
    rewrite bind_request_self, bind_request_sent by quiet_steps. done. }
  rewrite Hself1, Hsent1.
  set (o2 := create_workflow repr new_workflow sdk world).
  assert (sent o2 = [creation]) as Hsent2.
  { subst o2. unfold create_workflow.
    by rewrite bind_request_sent by quiet_steps. }
  rewrite Hsent2. split_and!.
  - destruct (result o1) as [[]|]; simpl; auto;
      destruct (result o2) as [[]|]; simpl; auto.
  - intros m. destruct (result o1) as [[]|]; simpl; try done;
      destruct (result o2) as [[]|]; simpl; done.
  - intros Hfail.
    assert (∃ message, result o1 = inl (ChainReactSDKError message))
      as [message ->]; [|by eexists].
    subst o1. unfold get_workflows.
    destruct (world listing) as [msg|r] eqn:Hworld.
    + eexists. apply bind_raises. by apply request_connection_failure.
    + destruct (raise_for_status_error r Hfail) as (kind & _ & Hraise).
      eexists. apply bind_raises. by apply request_http_error.
Qed.

End properties.

(** * The statements at concrete inputs *)

(** C6 at [delete_workflow("wf_1")] with the connection refused. *)
Lemma connection_failure_witness :
  result (run repr_scalar (DeleteWorkflow "wf_1") example_sdk world_refused)
  = inl (ChainReactSDKError "Request Error: Connection refused").
Proof.
  apply (connection_failure_raises_request_error repr_scalar
           (DeleteWorkflow "wf_1") example_sdk world_refused
           (issued example_sdk "DELETE" "/api/v1/workflows/wf_1" None None)
           "Connection refused").
  - vm_compute. reflexivity.
  - reflexivity.
Defined.

(** C2 at [get_workflow("wf_1")] answered 404. *)
Lemma not_found_witness :
  ∃ message,
    result (run repr_scalar (GetWorkflow "wf_1") example_sdk
              (world_answers 404 "Not Found" not_found_body))
    = inl (ChainReactSDKError message)
    ∧ message = "API Error: 404 - workflow not found"
    ∧ contains message "workflow not found"
    ∧ contains message "404".
Proof.
  apply (not_found_raises_api_error repr_scalar (GetWorkflow "wf_1")
           example_sdk (world_answers 404 "Not Found" not_found_body)
           (issued example_sdk "GET" "/api/v1/workflows/wf_1" None None)
           {| status_code := 404; reason := "Not Found";
              response_url := "https://api.chainreact.dev/api/v1/workflows/wf_1";
              response_json := not_found_body |}).
  - vm_compute. reflexivity.
  - reflexivity.
  - reflexivity.
  - reflexivity.
Defined.

(** C5 at [get_webhooks()] answered 502 with a body that is not JSON. *)
Lemma http_error_fallback_witness :
  ∃ error_message kind,
    result (run repr_scalar GetWebhooks example_sdk
              (world_answers 502 "Bad Gateway" not_json))
    = inl (ChainReactSDKError ("API Error: 502 - " +:+ error_message))
    ∧ kind ∈ ["Client Error"; "Server Error"]
    ∧ (lacks_error_field not_json →
       error_message
       = "502 " +:+ kind
         +:+ ": Bad Gateway for url: https://api.chainreact.dev/api/v1/webhooks").
Proof.
  apply (http_error_raises_with_fallback repr_scalar GetWebhooks
           example_sdk (world_answers 502 "Bad Gateway" not_json)
           (issued example_sdk "GET" "/api/v1/webhooks" None None)
           {| status_code := 502; reason := "Bad Gateway";
              response_url := "https://api.chainreact.dev/api/v1/webhooks";
              response_json := not_json |}).
  - vm_compute. reflexivity.
  - reflexivity.
  - simpl. lia.
Defined.

(** C10 at [delete_webhook("wh_1")] answered 204 with an empty body. *)
Lemma undecodable_success_body_witness :
  ∃ msg,
    result (run repr_scalar (DeleteWebhook "wh_1") example_sdk
              (world_answers 204 "No Content" not_json))
    = inl (ChainReactSDKError ("Request Error: " +:+ msg))
    ∨ result (run repr_scalar (DeleteWebhook "wh_1") example_sdk
                (world_answers 204 "No Content" not_json))
      = inl (ValueError msg).
Proof.
  apply (undecodable_success_body_raises repr_scalar (DeleteWebhook "wh_1")
           example_sdk (world_answers 204 "No Content" not_json)
           (issued example_sdk "DELETE" "/api/v1/webhooks/wh_1" None None)
           {| status_code := 204; reason := "No Content";
              response_url := "https://api.chainreact.dev/api/v1/webhooks/wh_1";
              response_json := not_json |}).
  - vm_compute. reflexivity.
  - reflexivity.
  - simpl. lia.
  - intros v. discriminate.
Defined.

(** C3 (as amended) at [get_workflow("wf_1")]: a 500 answer surfaces as
    [ChainReactSDKError]. *)
Lemma failures_surface_witness :
  ∃ message,
    result (run repr_scalar (GetWorkflow "wf_1") example_sdk
              (world_answers 500 "Internal Server Error" not_json))
    = inl (ChainReactSDKError message).
Proof.
  apply (failures_surface_as_sdk_error repr_scalar (GetWorkflow "wf_1")
           example_sdk (world_answers 500 "Internal Server Error" not_json)
           (issued example_sdk "GET" "/api/v1/workflows/wf_1" None None)).
  - vm_compute. reflexivity.
  - simpl. lia.
Defined.

(** C3 as stated fails: [get_workflow("wf_1")] answered 200 with the JSON
    object [{}] ends with [KeyError('data')], which is neither a value nor
    [ChainReactSDKError]. *)
Lemma key_error_escapes_get_workflow :
  result (run repr_scalar (GetWorkflow "wf_1") example_sdk
            (world_answers 200 "OK" (JsonValue (PDict ∅))))
  = inl (KeyError "data")
  ∧ (value_or_sdk_error
       (run repr_scalar (GetWorkflow "wf_1") example_sdk
          (world_answers 200 "OK" (JsonValue (PDict ∅))))
     ↔ False).
Proof. split; [|split; [|done]]; vm_compute; done. Qed.

(** C9 at two calls in a row. *)
Lemma auth_headers_witness :
  (run_calls repr_scalar
     [(GetWebhooks, world_refused);
      (DeleteWorkflow "wf_1", world_answers 204 "No Content" not_json)]
     example_sdk).1 = example_sdk
  ∧ Forall
      (λ req,
         headers req !! "Authorization" = Some "Bearer your_api_key_here"
         ∧ headers req !! "Content-Type" = Some "application/json")
      (run_calls repr_scalar
         [(GetWebhooks, world_refused);
          (DeleteWorkflow "wf_1", world_answers 204 "No Content" not_json)]
         example_sdk).2.
Proof.
  destruct (auth_headers_on_every_request repr_scalar plain_session
              example_config
              [(GetWebhooks, world_refused);
               (DeleteWorkflow "wf_1",
                world_answers 204 "No Content" not_json)])
    as (Hself & _ & Hheaders).
  split; [exact Hself|].
  apply Forall_forall. intros req Hreq. apply (Hheaders req Hreq).
Defined.

(** C1 as stated fails: an explicitly empty description is not sent; the
    request goes out exactly as if the description were absent. *)
Lemma empty_description_is_omitted :
  example_workflow (Some "") ≠ example_workflow None
  ∧ sent (create_workflow repr_scalar (example_workflow (Some "")) example_sdk
            world_refused)
    = sent (create_workflow repr_scalar (example_workflow None) example_sdk
              world_refused)
  ∧ ∀ data,
      json <$> sent (create_workflow repr_scalar (example_workflow (Some ""))
                       example_sdk world_refused)
      = [Some (PDict data)] →
      data !! "description" = None.
Proof.
  split_and!.
  - discriminate.
  - vm_compute. reflexivity.
  - intros data Hdata. vm_compute in Hdata. injection Hdata as <-.
    vm_compute. reflexivity.
Qed.

(** C4 (as amended) at [execute_workflow("wf_1", {"x": 1})]. *)
Lemma execute_workflow_witness :
  json <$> sent (execute_workflow repr_scalar "wf_1"
                   (Some (<["x" := PInt 1]> ∅)) example_sdk
                   (world_answers 200 "OK" execution_body))
  = [Some (PDict (<["input" := PDict (<["x" := PInt 1]> ∅)]> ∅))]
  ∧ result (execute_workflow repr_scalar "wf_1"
              (Some (<["x" := PInt 1]> ∅)) example_sdk
              (world_answers 200 "OK" execution_body))
    = inr (PStr "exec_42").
Proof.
  pose proof (execute_workflow_body_and_result repr_scalar "wf_1"
                (Some (<["x" := PInt 1]> ∅)) example_sdk
                (world_answers 200 "OK" execution_body)) as [Hsent Hresult].
  split.
  - rewrite Hsent. vm_compute. reflexivity.
  - eapply Hresult.
    + reflexivity.
    + simpl. lia.
    + reflexivity.
    + vm_compute. reflexivity.
    + vm_compute. reflexivity.
Defined.

(** C4 as stated fails: with the empty mapping supplied as input the body
    is [{}], not [{"input": {}}]. *)
Lemma empty_input_is_not_sent :
  json <$> sent (execute_workflow repr_scalar "wf_1" (Some ∅) example_sdk
                   world_refused)
  = [Some (PDict ∅)]
  ∧ json <$> sent (execute_workflow repr_scalar "wf_1" (Some ∅) example_sdk
                     world_refused)
    ≠ [Some (PDict (<["input" := PDict ∅]> ∅))].
Proof. split; vm_compute; [reflexivity|discriminate]. Qed.

(** * The further properties at concrete inputs *)

(** X2 at [get_workflow("wf_1")] answered 404 with [{"error": ""}]. *)
Lemma error_field_witness :
  result (run repr_scalar (GetWorkflow "wf_1") example_sdk
            (world_answers 404 "Not Found"
               (JsonValue (PDict (<["error" := PStr ""]> ∅)))))
  = inl (ChainReactSDKError "API Error: 404 - ").
Proof.
  apply (error_field_is_used_as_it_is repr_scalar (GetWorkflow "wf_1")
           example_sdk
           (world_answers 404 "Not Found"
              (JsonValue (PDict (<["error" := PStr ""]> ∅))))
           (issued example_sdk "GET" "/api/v1/workflows/wf_1" None None)
           {| status_code := 404; reason := "Not Found";
              response_url := "https://api.chainreact.dev/api/v1/workflows/wf_1";
              response_json := JsonValue (PDict (<["error" := PStr ""]> ∅)) |}
           (<["error" := PStr ""]> ∅) (PStr "")).
  - vm_compute. reflexivity.
  - reflexivity.
  - simpl. lia.
  - reflexivity.
  - vm_compute. reflexivity.
Defined.

(** X3 at [delete_workflow("wf_1")] answered 200 with the body [null]. *)
Lemma delete_ignores_the_body_witness :
  result (run repr_scalar (DeleteWorkflow "wf_1") example_sdk
            (world_answers 200 "OK" (JsonValue PNone)))
  = inr RNothing.
Proof.
  apply (delete_ignores_the_body repr_scalar (DeleteWorkflow "wf_1")
           example_sdk (world_answers 200 "OK" (JsonValue PNone))
           (issued example_sdk "DELETE" "/api/v1/workflows/wf_1" None None)
           {| status_code := 200; reason := "OK";
              response_url := "https://api.chainreact.dev/api/v1/workflows/wf_1";
              response_json := JsonValue PNone |} PNone).
  - simpl. tauto.
  - vm_compute. reflexivity.
  - reflexivity.
  - simpl. lia.
  - reflexivity.
Defined.

(** X5 at [get_workflow("wf_1")] answered with a complete workflow. *)
Lemma workflow_mapping_witness :
  ∃ w,
    result (run repr_scalar (GetWorkflow "wf_1") example_sdk
              (world_answers 200 "OK"
                 (JsonValue (PDict (data_object (PDict workflow_json))))))
    = inr (RWorkflow w)
    ∧ wf_name w = PStr "Test Workflow".
Proof.
  destruct (workflow_response_is_mapped_fieldwise repr_scalar
              (GetWorkflow "wf_1") example_sdk
              (world_answers 200 "OK"
                 (JsonValue (PDict (data_object (PDict workflow_json)))))
              (issued example_sdk "GET" "/api/v1/workflows/wf_1" None None)
              {| status_code := 200; reason := "OK";
                 response_url :=
                   "https://api.chainreact.dev/api/v1/workflows/wf_1";
                 response_json :=
                   JsonValue (PDict (data_object (PDict workflow_json))) |}
              (data_object (PDict workflow_json)) workflow_json)
    as (w & Hw & _ & Hname & _).
  - exact I.
  - vm_compute. reflexivity.
  - reflexivity.
  - simpl. lia.
  - reflexivity.
  - vm_compute. reflexivity.
  - vm_compute. reflexivity.
  - exists w. split; [exact Hw|].
    assert (workflow_json !! "name" = Some (PStr "Test Workflow")) as E
      by (vm_compute; reflexivity).
    rewrite E in Hname. congruence.
Defined.

(** X6 at [update_webhook("wh_1", is_active=False)] answered with a
    subscription that has one more key than the data class. *)
Lemma entity_of_wrong_shape_witness :
  result (run repr_scalar (UpdateWebhook "wh_1" webhook_patch) example_sdk
            (world_answers 200 "OK"
               (JsonValue
                  (PDict (data_object
                            (PDict (<["secret_key" := PNone]> webhook_json)))))))
  = inl TypeError.
Proof.
  apply (entity_of_wrong_shape_raises_type_error repr_scalar
           (UpdateWebhook "wh_1" webhook_patch) WebhookSubscription_fields
           example_sdk
           (world_answers 200 "OK"
              (JsonValue
                 (PDict (data_object
                           (PDict (<["secret_key" := PNone]> webhook_json))))))
           (issued example_sdk "PUT" "/api/v1/webhooks/wh_1" None
              (Some (PDict webhook_patch)))
           {| status_code := 200; reason := "OK";
              response_url := "https://api.chainreact.dev/api/v1/webhooks/wh_1";
              response_json :=
                JsonValue
                  (PDict (data_object
                            (PDict (<["secret_key" := PNone]> webhook_json)))) |}
           (data_object (PDict (<["secret_key" := PNone]> webhook_json)))
           (PDict (<["secret_key" := PNone]> webhook_json))).
  - right. split; [exact I|reflexivity].
  - vm_compute. reflexivity.
  - reflexivity.
  - simpl. lia.
  - reflexivity.
  - vm_compute. reflexivity.
  - intros d [= <-] Hdom. apply (f_equal size) in Hdom. vm_compute in Hdom.
    discriminate.
Defined.

(** X7 at [update_webhook("wh_1", is_active=False)] answered with a
    complete subscription. *)
Lemma webhook_mapping_witness :
  ∃ h,
    result (run repr_scalar (UpdateWebhook "wh_1" webhook_patch) example_sdk
              (world_answers 200 "OK"
                 (JsonValue (PDict (data_object (PDict webhook_json))))))
    = inr (RWebhook h)
    ∧ wh_is_active h = PBool true.
Proof.
  destruct (webhook_response_is_mapped_fieldwise repr_scalar
              (UpdateWebhook "wh_1" webhook_patch) example_sdk
              (world_answers 200 "OK"
                 (JsonValue (PDict (data_object (PDict webhook_json)))))
              (issued example_sdk "PUT" "/api/v1/webhooks/wh_1" None
                 (Some (PDict webhook_patch)))
              {| status_code := 200; reason := "OK";
                 response_url :=
                   "https://api.chainreact.dev/api/v1/webhooks/wh_1";
                 response_json :=
                   JsonValue (PDict (data_object (PDict webhook_json))) |}
              (data_object (PDict webhook_json)) webhook_json)
    as (h & Hh & _ & _ & _ & _ & Hactive & _).
  - exact I.
  - vm_compute. reflexivity.
  - reflexivity.
  - simpl. lia.
  - reflexivity.
  - vm_compute. reflexivity.
  - vm_compute. reflexivity.
  - exists h. split; [exact Hh|].
    assert (webhook_json !! "is_active" = Some (PBool true)) as E
      by (vm_compute; reflexivity).
    rewrite E in Hactive. congruence.
Defined.

(** X8 at [get_workflows(page=2, limit=5)] answered with two workflows. *)
Lemma get_workflows_witness :
  result (get_workflows repr_scalar 2 5 example_sdk
            (world_answers 200 "OK"
               (JsonValue
                  (PDict (listing_object
                            [PDict workflow_json; PDict workflow_json])))))
  = inr {| pr_data := [workflow_entity; workflow_entity];
           pr_pagination := page_block |}.
Proof.
  apply (get_workflows_maps_each_item repr_scalar 2 5 example_sdk
           (world_answers 200 "OK"
              (JsonValue
                 (PDict (listing_object
                           [PDict workflow_json; PDict workflow_json]))))
           {| status_code := 200; reason := "OK";
              response_url := "https://api.chainreact.dev/api/v1/workflows";
              response_json :=
                JsonValue
                  (PDict (listing_object
                            [PDict workflow_json; PDict workflow_json])) |}
           (listing_object [PDict workflow_json; PDict workflow_json])
           [PDict workflow_json; PDict workflow_json]).
  - reflexivity.
  - simpl. lia.
  - reflexivity.
  - vm_compute. reflexivity.
  - vm_compute. reflexivity.
  - repeat constructor; vm_compute; reflexivity.
Defined.

(** X9 at [get_workflows(page=1, limit=20)] answered with one workflow and
    one [null]. *)
Lemma get_workflows_malformed_witness :
  result (get_workflows repr_scalar 1 20 example_sdk
            (world_answers 200 "OK"
               (JsonValue
                  (PDict (data_object (PList [PDict workflow_json; PNone]))))))
  = inl TypeError.
Proof.
  apply (get_workflows_malformed_item repr_scalar 1 20 example_sdk
           (world_answers 200 "OK"
              (JsonValue
                 (PDict (data_object (PList [PDict workflow_json; PNone])))))
           {| status_code := 200; reason := "OK";
              response_url := "https://api.chainreact.dev/api/v1/workflows";
              response_json :=
                JsonValue
                  (PDict (data_object (PList [PDict workflow_json; PNone]))) |}
           (data_object (PList [PDict workflow_json; PNone]))
           [PDict workflow_json; PNone] PNone).
  - reflexivity.
  - simpl. lia.
  - reflexivity.
  - vm_compute. reflexivity.
  - right. left.
  - intros w. discriminate.
Defined.

(** X10 at [get_webhooks()] answered with one subscription. *)
Lemma get_webhooks_witness :
  result (get_webhooks repr_scalar example_sdk
            (world_answers 200 "OK"
               (JsonValue (PDict (data_object (PList [PDict webhook_json]))))))
  = inr [webhook_entity].
Proof.
  apply (get_webhooks_maps_each_item repr_scalar example_sdk
           (world_answers 200 "OK"
              (JsonValue (PDict (data_object (PList [PDict webhook_json])))))
           {| status_code := 200; reason := "OK";
              response_url := "https://api.chainreact.dev/api/v1/webhooks";
              response_json :=
                JsonValue (PDict (data_object (PList [PDict webhook_json]))) |}
           (data_object (PList [PDict webhook_json]))
           [PDict webhook_json]).
  - reflexivity.
  - simpl. lia.
  - reflexivity.
  - vm_compute. reflexivity.
  - repeat constructor; vm_compute; reflexivity.
Defined.

(** X12 at [get_workflows(page=1, limit=20)] answered 200 with a body that
    has [data] and no [pagination]. *)
Lemma raised_exceptions_witness :
  result (run repr_scalar (GetWorkflows 1 20) example_sdk
            (world_answers 200 "OK" (JsonValue (PDict (data_object (PList []))))))
  = inl (KeyError "pagination")
  ∧ may_raise (GetWorkflows 1 20) (KeyError "pagination").
Proof.
  assert (result (run repr_scalar (GetWorkflows 1 20) example_sdk
                    (world_answers 200 "OK"
                       (JsonValue (PDict (data_object (PList []))))))
          = inl (KeyError "pagination")) as H
    by (vm_compute; reflexivity).
  split; [exact H|].
  exact (raised_exceptions repr_scalar (GetWorkflows 1 20) example_sdk
           (world_answers 200 "OK" (JsonValue (PDict (data_object (PList [])))))
           (KeyError "pagination") H).
Defined.
